(** * The LLM gateway of nootron: [utils/call_llm.py]

    A shallow embedding of the two entry points [call_llm] and
    [call_llm_with_history], and of the message conversion that
    [call_llm_with_history] performs for the Anthropic client.

    Python objects that the code shares and mutates (the message dicts)
    live in a store of objects addressed by reference; exceptions, the
    process environment, the logger and the two provider clients are the
    effects of a small monad.  A [str] is held as its UTF-8 bytes, and
    its length is counted in characters. *)

From Stdlib Require Import ZArith Ascii String DecimalString PrimFloat.
From stdpp Require Import base tactics option list strings gmap.


(** ** Python values *)

Module Py.

(** The values that travel through keyword arguments and request fields. *)
Inductive value :=
| VNone
| VStr (s : string)
| VInt (n : Z)
| VFloat (x : float).

(** Truth value of an object, as used by [not x] and [x or y]. *)
Definition truthy (v : value) : bool :=
  match v with
  | VNone => false
  | VStr s => negb (String.eqb s "")
  | VInt n => negb (Z.eqb n 0%Z)
  | VFloat x => negb (PrimFloat.eqb x 0%float)
  end.

(** [x or y] *)
Definition or_else (x y : value) : value := if truthy x then x else y.

Definition of_opt_str (o : option string) : value :=
  match o with Some s => VStr s | None => VNone end.

Definition of_opt_int (o : option Z) : value :=
  match o with Some n => VInt n | None => VNone end.

(** [str.lower] on the characters that matter for the comparison with
    the two provider names: the ASCII capitals.  No character outside
    ASCII lowers to a letter of "openai" or "anthropic". *)
Definition lower_ascii (c : ascii) : ascii :=
  let n := nat_of_ascii c in
  if andb (65 <=? n) (n <=? 90) then ascii_of_nat (n + 32) else c.

Fixpoint lower (s : string) : string :=
  match s with
  | EmptyString => EmptyString
  | String c r => String (lower_ascii c) (lower r)
  end.

(** [len(s)]: the number of characters of a [str], held here as its
    UTF-8 bytes; a byte 10xxxxxx continues a character. *)
Definition is_continuation_byte (c : ascii) : bool :=
  let n := nat_of_ascii c in
  andb (128 <=? n) (n <? 192).

Fixpoint py_len (s : string) : nat :=
  match s with
  | EmptyString => 0
  | String c r => (if is_continuation_byte c then 0 else 1) + py_len r
  end.

(** [str(n)] for a length. *)
Definition str_of_nat (n : nat) : string :=
  NilZero.string_of_uint (Nat.to_uint n).

(** The exceptions the code can meet; all are subclasses of
    [Exception].  [ClientError] stands for whatever a provider client
    raises (transport or API fault), with its message. *)
Inductive exn :=
| ValueError (msg : string)
| KeyError (key : string)
| IndexError (msg : string)
| TypeError (msg : string)
| ClientError (msg : string).

(** [str(e)]; a [KeyError] prints the repr of its key. *)
Definition str (e : exn) : string :=
  match e with
  | ValueError m | IndexError m | TypeError m | ClientError m => m
  | KeyError k => "'" +:+ k +:+ "'"
  end.

End Py.
Import Py.

(** ** Objects, requests and the outside world *)

(** A message is a Python [dict] from strings to strings
    ([Dict[str, str]]).  Reading an absent key raises [KeyError]. *)
Abbreviation dict := (gmap string string).

(** The caller's message dicts are objects: the list handed to
    [call_llm_with_history] holds references to them, and the Anthropic
    conversion writes through such a reference. *)
Definition loc := nat.
Definition heap := loc -> dict.

Definition store (h : heap) (l : loc) (d : dict) : heap :=
  fun l' => if decide (l' = l) then d else h l'.

(** The keyword arguments of one call to a client's [create]. *)
Record request := {
  req_model : value;
  req_messages : list dict;
  req_temperature : value;
  req_max_tokens : value }.

(** What a run does that is visible from outside. *)
Inductive event :=
| Getenv (name : string)
| LogInfo (msg : string)
| LogError (msg : string)
| OpenAICreate (api_key : value) (req : request)
| AnthropicCreate (api_key : value) (req : request).

Definition is_network_call (ev : event) : bool :=
  match ev with
  | OpenAICreate _ _ | AnthropicCreate _ _ => true
  | _ => false
  end.

Definition network_calls (evs : list event) : list event :=
  List.filter is_network_call evs.

(** The process environment and the two remote services.  A service
    answers a request with the texts of its completion units
    ([choices[i].message.content], which may be [None], for OpenAI;
    [content[i].text] for Anthropic) or raises. *)
Record world := {
  environ : string -> option string;
  openai_api : value -> request -> exn + list (option string);
  anthropic_api : value -> request -> exn + list string }.

(** ** The effects of the code *)

Inductive outcome (A : Type) :=
| Returns (a : A)
| Raises (e : exn).
Arguments Returns {A} a.
Arguments Raises {A} e.

(** A computation reads the world, may update the store of objects, and
    emits events; it returns a value or raises. *)
Definition M (A : Type) : Type := world -> heap -> outcome A * heap * list event.

Definition ret {A} (a : A) : M A := fun _ h => (Returns a, h, []).

Definition raise {A} (e : exn) : M A := fun _ h => (Raises e, h, []).

Definition bind {A B} (m : M A) (k : A -> M B) : M B :=
  fun w h =>
    match m w h with
    | (Returns a, h1, evs1) =>
        let '(o, h2, evs2) := k a w h1 in (o, h2, evs1 ++ evs2)
    | (Raises e, h1, evs1) => (Raises e, h1, evs1)
    end.

(** [try: m except Exception as e: handler e] *)
Definition try_except {A} (m : M A) (handler : exn -> M A) : M A :=
  fun w h =>
    match m w h with
    | (Returns a, h1, evs1) => (Returns a, h1, evs1)
    | (Raises e, h1, evs1) =>
        let '(o, h2, evs2) := handler e w h1 in (o, h2, evs1 ++ evs2)
    end.

Declare Scope py_scope.
Delimit Scope py_scope with py.
Notation "x <- m ;; k" := (bind m (fun x => k))
  (at level 100, m at next level, right associativity) : py_scope.
Notation "m ;;; k" := (bind m (fun _ => k))
  (at level 100, right associativity) : py_scope.
Local Open Scope py_scope.

(** [os.getenv(name)] *)
Definition getenv (name : string) : M value :=
  fun w h => (Returns (of_opt_str (environ w name)), h, [Getenv name]).

(** [logger.info(msg)], [logger.error(msg)] *)
Definition log_info (msg : string) : M unit :=
  fun _ h => (Returns tt, h, [LogInfo msg]).

Definition log_error (msg : string) : M unit :=
  fun _ h => (Returns tt, h, [LogError msg]).

(** The object behind a reference, and all the objects of a list. *)
Definition deref (l : loc) : M dict := fun _ h => (Returns (h l), h, []).

Definition snapshot (ls : list loc) : M (list dict) :=
  fun _ h => (Returns (map h ls), h, []).

(** [d[key]] *)
Definition getitem (d : dict) (key : string) : M string :=
  match d !! key with
  | Some v => ret v
  | None => raise (KeyError key)
  end.

(** [obj[key] = v] through the reference [l] *)
Definition setitem (l : loc) (key v : string) : M unit :=
  fun _ h => (Returns tt, store h l (<[key := v]> (h l)), []).

(** [xs[0]] *)
Definition first_item {A} (xs : list A) : M A :=
  match xs with
  | x :: _ => ret x
  | [] => raise (IndexError "list index out of range")
  end.

(** [len(x)] of a completion text *)
Definition len (x : option string) : M nat :=
  match x with
  | Some s => ret (py_len s)
  | None => raise (TypeError "object of type 'NoneType' has no len()")
  end.

(** [client.chat.completions.create(...)], [client.messages.create(...)] *)
Definition openai_create (api_key : value) (req : request) : M (list (option string)) :=
  fun w h =>
    (match openai_api w api_key req with inl e => Raises e | inr r => Returns r end,
     h, [OpenAICreate api_key req]).

Definition anthropic_create (api_key : value) (req : request) : M (list string) :=
  fun w h =>
    (match anthropic_api w api_key req with inl e => Raises e | inr r => Returns r end,
     h, [AnthropicCreate api_key req]).

(** [v == "literal"] *)
Definition eq_str (v : value) (s : string) : bool :=
  match v with VStr t => String.eqb t s | _ => false end.

(** [kwargs.get(key, default)] *)
Definition kwargs_get (kwargs : gmap string value) (key : string) (default : value) : value :=
  match kwargs !! key with Some v => v | None => default end.

(** ** [call_llm] *)

Definition default_provider : string := "openai".

(** 0.7, as the binary64 value Python reads it *)
Definition default_temperature : float := 0x1.6666666666666p-1%float.

(** The [except Exception as e] clause shared by both entry points: log,
    then re-raise the exception that was caught. *)
Definition log_and_reraise {A} (prefix : string) (e : exn) : M A :=
  log_error (prefix +:+ str e);;; raise e.

Definition call_llm (prompt provider : string) (model : option string)
    (temperature : float) (max_tokens : option Z) : M value :=
  log_info ("Calling " +:+ provider +:+ " LLM with prompt length: "
            +:+ str_of_nat (py_len prompt));;;
  try_except
    (result <-
       (if decide (lower provider = "openai") then
          api_key <- getenv "OPENAI_API_KEY";;
          if negb (truthy api_key) || eq_str api_key "YOUR_API_KEY_HERE" then
            raise (ValueError "OPENAI_API_KEY not found in environment variables")
          else
            let model := or_else (of_opt_str model) (VStr "gpt-4o") in
            response <- openai_create api_key
              {| req_model := model;
                 req_messages := [ {[ "role" := "user"; "content" := prompt ]} ];
                 req_temperature := VFloat temperature;
                 req_max_tokens := of_opt_int max_tokens |};;
            first_item response
        else if decide (lower provider = "anthropic") then
          api_key <- getenv "ANTHROPIC_API_KEY";;
          if negb (truthy api_key) then
            raise (ValueError "ANTHROPIC_API_KEY not found in environment variables")
          else
            let model := or_else (of_opt_str model) (VStr "claude-3-opus-20240229") in
            response <- anthropic_create api_key
              {| req_model := model;
                 req_messages := [ {[ "role" := "user"; "content" := prompt ]} ];
                 req_temperature := VFloat temperature;
                 req_max_tokens := or_else (of_opt_int max_tokens) (VInt 4096) |};;
            text <- first_item response;;
            ret (Some text)
        else
          raise (ValueError ("Unsupported provider: " +:+ provider)));;
     n <- len result;;
     log_info ("Received response of length: " +:+ str_of_nat n);;;
     ret (of_opt_str result))
    (log_and_reraise ("Error calling " +:+ provider +:+ " LLM: ")).

(** [call_openai], [call_anthropic] without further keyword arguments *)
Definition call_openai (prompt : string) : M value :=
  call_llm prompt "openai" None default_temperature None.

Definition call_anthropic (prompt : string) : M value :=
  call_llm prompt "anthropic" None default_temperature None.

(** ** [call_llm_with_history] *)

(** The separator written between a system content and the user
    content it is prepended to: two line feeds. *)
Definition blank_line : string := String "010" (String "010" "").

(** The loop that builds [anthropic_messages], started with the list as
    it stands.  Objects are appended by reference, and a system message
    writes through the reference at index 0. *)
Fixpoint anthropic_messages_from (messages : list loc) (anthropic_messages : list loc)
    : M (list loc) :=
  match messages with
  | [] => ret anthropic_messages
  | l :: rest =>
      msg <- deref l;;
      role <- getitem msg "role";;
      if decide (role = "system") then
        match anthropic_messages with
        | l0 :: _ =>
            first <- deref l0;;
            role0 <- getitem first "role";;
            if decide (role0 = "user") then
              content <- getitem msg "content";;
              content0 <- getitem first "content";;
              setitem l0 "content" (content +:+ blank_line +:+ content0);;;
              anthropic_messages_from rest anthropic_messages
            else anthropic_messages_from rest anthropic_messages
        | [] => anthropic_messages_from rest anthropic_messages
        end
      else anthropic_messages_from rest (anthropic_messages ++ [l])
  end.

Definition anthropic_messages (messages : list loc) : M (list loc) :=
  anthropic_messages_from messages [].

Definition call_llm_with_history (messages : list loc) (provider : string)
    (kwargs : gmap string value) : M value :=
  match messages with
  | [] => raise (ValueError "Messages list cannot be empty")
  | _ :: _ =>
      log_info ("Calling " +:+ provider +:+ " with "
                +:+ str_of_nat (length messages) +:+ " messages");;;
      try_except
        (if decide (lower provider = "openai") then
           api_key <- getenv "OPENAI_API_KEY";;
           if negb (truthy api_key) then
             raise (ValueError "OPENAI_API_KEY not found in environment variables")
           else
             let model := kwargs_get kwargs "model" (VStr "gpt-4o") in
             sent <- snapshot messages;;
             response <- openai_create api_key
               {| req_model := model;
                  req_messages := sent;
                  req_temperature := kwargs_get kwargs "temperature" (VFloat default_temperature);
                  req_max_tokens := kwargs_get kwargs "max_tokens" VNone |};;
             content <- first_item response;;
             ret (of_opt_str content)
         else if decide (lower provider = "anthropic") then
           api_key <- getenv "ANTHROPIC_API_KEY";;
           if negb (truthy api_key) then
             raise (ValueError "ANTHROPIC_API_KEY not found in environment variables")
           else
             let model := kwargs_get kwargs "model" (VStr "claude-3-opus-20240229") in
             converted <- anthropic_messages messages;;
             sent <- snapshot converted;;
             response <- anthropic_create api_key
               {| req_model := model;
                  req_messages := sent;
                  req_temperature := kwargs_get kwargs "temperature" (VFloat default_temperature);
                  req_max_tokens := kwargs_get kwargs "max_tokens" (VInt 4096) |};;
             text <- first_item response;;
             ret (VStr text)
         else
           ret VNone)
        (log_and_reraise ("Error calling " +:+ provider +:+ " with history: "))
  end.

(** ** Observing a run *)

Definition result {A} (r : outcome A * heap * list event) : outcome A := r.1.1.
Definition final_heap {A} (r : outcome A * heap * list event) : heap := r.1.2.
Definition events {A} (r : outcome A * heap * list event) : list event := r.2.

(** The translated sequence as the Anthropic client receives it: the
    objects behind the references, as they are after the loop. *)
Definition translated (r : outcome (list loc) * heap * list event) : option (list dict) :=
  match result r with
  | Returns out => Some (map (final_heap r) out)
  | Raises _ => None
  end.

(** An error carries a text when the text occurs in its message. *)
Definition carries (e : exn) (text : string) : Prop :=
  is_Some (String.index 0 text (str e)).

(** The value of [max_tokens] that reaches each client when the caller
    gave none, and the model identifier each client falls back to. *)
Definition sends_max_tokens (to_openai to_anthropic : value) (ev : event) : Prop :=
  match ev with
  | OpenAICreate _ req => req_max_tokens req = to_openai
  | AnthropicCreate _ req => req_max_tokens req = to_anthropic
  | _ => True
  end.

Definition sends_model (to_openai to_anthropic : value) (ev : event) : Prop :=
  match ev with
  | OpenAICreate _ req => req_model req = to_openai
  | AnthropicCreate _ req => req_model req = to_anthropic
  | _ => True
  end.

(** ** Vocabulary of the statements *)

(** The list built so far gives a system message nothing to fold into:
    it is empty, or its first object has a role other than "user". *)
Definition nothing_to_fold_into (h : heap) (acc : list loc) : Prop :=
  match acc with
  | [] => True
  | l0 :: _ => exists role0, h l0 !! "role" = Some role0 /\ role0 <> "user"
  end.

(** What one fold leaves in the first object's content. *)
Definition prepend_system (system_content content : string) : string :=
  system_content +:+ blank_line +:+ content.

(** The contents of the system messages of a sequence, in input order. *)
Definition system_contents (h : heap) (messages : list loc) : list string :=
  omap (fun l => if decide (h l !! "role" = Some "system") then h l !! "content" else None)
       messages.

(** Every message has a role, and every system message a content. *)
Definition readable (h : heap) (messages : list loc) : Prop :=
  forall l, l ∈ messages ->
    is_Some (h l !! "role") /\
    (h l !! "role" = Some "system" -> is_Some (h l !! "content")).

(** What [call_llm] refuses as an OpenAI key. *)
Definition no_openai_key (o : option string) : Prop :=
  o = None \/ o = Some "" \/ o = Some "YOUR_API_KEY_HERE".

(** What the other three paths refuse as a key. *)
Definition no_key (o : option string) : Prop :=
  o = None \/ o = Some "".

(** The faults the clients raised during a run. *)
Definition fault_of (w : world) (ev : event) : option exn :=
  match ev with
  | OpenAICreate key req =>
      match openai_api w key req with inl e => Some e | inr _ => None end
  | AnthropicCreate key req =>
      match anthropic_api w key req with inl e => Some e | inr _ => None end
  | _ => None
  end.

Definition client_faults (w : world) (evs : list event) : list exn :=
  omap (fault_of w) evs.

(** The single message of a single-turn request. *)
Definition user_message (prompt : string) : dict :=
  {[ "role" := "user"; "content" := prompt ]}.

(** A call of either entry point. *)
Inductive call :=
| SingleTurn (prompt provider : string) (model : option string)
    (temperature : float) (max_tokens : option Z)
| MultiTurn (messages : list loc) (provider : string) (kwargs : gmap string value).

Definition run (c : call) : M value :=
  match c with
  | SingleTurn prompt provider model temperature max_tokens =>
      call_llm prompt provider model temperature max_tokens
  | MultiTurn messages provider kwargs =>
      call_llm_with_history messages provider kwargs
  end.

(** The text each entry point puts before [str(e)] in its error record. *)
Definition error_prefix (c : call) : string :=
  match c with
  | SingleTurn _ provider _ _ _ => "Error calling " +:+ provider +:+ " LLM: "
  | MultiTurn _ provider _ => "Error calling " +:+ provider +:+ " with history: "
  end.

(** The caller gave no [max_tokens]. *)
Definition max_tokens_omitted (c : call) : Prop :=
  match c with
  | SingleTurn _ _ _ _ max_tokens => max_tokens = None
  | MultiTurn _ _ kwargs => kwargs !! "max_tokens" = None
  end.

(** The [model] the caller gave, if any. *)
Definition model_field (c : call) : option value :=
  match c with
  | SingleTurn _ _ model _ _ => VStr <$> model
  | MultiTurn _ _ kwargs => kwargs !! "model"
  end.

(** ** Sample conversations and worlds *)

Definition system_message (content : string) : dict :=
  {[ "role" := "system"; "content" := content ]}.

Definition assistant_message (content : string) : dict :=
  {[ "role" := "assistant"; "content" := content ]}.

(** The conversation of the module's self-test at references 0 to 3, and
    one more system message at reference 4. *)
Definition sample_heap : heap :=
  fun l =>
    match l with
    | 0 => system_message "You are a helpful assistant."
    | 1 => user_message "What is Python?"
    | 2 => assistant_message "Python is a high-level programming language."
    | 3 => user_message "What are its main uses?"
    | 4 => system_message "Answer in one sentence."
    | _ => ∅
    end.

(** A world with the given environment whose two services give the same
    reply to every request: a fault, or one completion with a text. *)
Definition sample_world (env : gmap string string) (reply : exn + string) : world :=
  {| environ := fun name => env !! name;
     openai_api := fun _ _ =>
       match reply with inl e => inl e | inr text => inr [Some text] end;
     anthropic_api := fun _ _ =>
       match reply with inl e => inl e | inr text => inr [text] end |}.

Definition both_keys : gmap string string :=
  {[ "OPENAI_API_KEY" := "sk-test"; "ANTHROPIC_API_KEY" := "sk-ant-test" ]}.

Definition placeholder_key : gmap string string :=
  {[ "OPENAI_API_KEY" := "YOUR_API_KEY_HERE" ]}.

(** ** Vocabulary of the further properties *)

(** The messages the conversion for Anthropic keeps: those whose role is
    not "system", in input order. *)
Definition kept (h : heap) (messages : list loc) : list loc :=
  filter (fun l => h l !! "role" <> Some "system") messages.

(** Every message has the two keys the docstring asks for. *)
Definition well_formed (h : heap) (messages : list loc) : Prop :=
  forall l, l ∈ messages -> is_Some (h l !! "role") /\ is_Some (h l !! "content").

(** The provider name a call was made with. *)
Definition provider_of (c : call) : string :=
  match c with
  | SingleTurn _ provider _ _ _ => provider
  | MultiTurn _ provider _ => provider
  end.

(** The same call under another provider name. *)
Definition with_provider (c : call) (provider : string) : call :=
  match c with
  | SingleTurn prompt _ model temperature max_tokens =>
      SingleTurn prompt provider model temperature max_tokens
  | MultiTurn messages _ kwargs => MultiTurn messages provider kwargs
  end.

(** The call passes the validation of its arguments: only
    [call_llm_with_history] has one, on the message list. *)
Definition has_messages (c : call) : Prop :=
  match c with
  | SingleTurn _ _ _ _ _ => True
  | MultiTurn messages _ _ => messages <> []
  end.

(** What concerns one provider among the events: reading its key, or
    calling its client. *)
Definition uses_openai (ev : event) : bool :=
  match ev with
  | Getenv name => String.eqb name "OPENAI_API_KEY"
  | OpenAICreate _ _ => true
  | _ => false
  end.

Definition uses_anthropic (ev : event) : bool :=
  match ev with
  | Getenv name => String.eqb name "ANTHROPIC_API_KEY"
  | AnthropicCreate _ _ => true
  | _ => false
  end.

(** The answers the clients gave during a run, each as the list of its
    completion texts. *)
Definition reply_of (w : world) (ev : event) : option (list (option string)) :=
  match ev with
  | OpenAICreate key req =>
      match openai_api w key req with inl _ => None | inr texts => Some texts end
  | AnthropicCreate key req =>
      match anthropic_api w key req with inl _ => None | inr texts => Some (Some <$> texts) end
  | _ => None
  end.

Definition client_replies (w : world) (evs : list event) : list (list (option string)) :=
  omap (reply_of w) evs.

Definition is_error_record (ev : event) : bool :=
  match ev with LogError _ => true | _ => false end.

Definition sends_temperature (temperature : value) (ev : event) : Prop :=
  match ev with
  | OpenAICreate _ req | AnthropicCreate _ req => req_temperature req = temperature
  | _ => True
  end.

Definition sends_messages (messages : list dict) (ev : event) : Prop :=
  match ev with
  | OpenAICreate _ req | AnthropicCreate _ req => req_messages req = messages
  | _ => True
  end.

(** The key a client was called with is the value of its environment
    variable, and that value is not empty. *)
Definition called_with_own_key (w : world) (ev : event) : Prop :=
  match ev with
  | OpenAICreate key _ =>
      exists k, environ w "OPENAI_API_KEY" = Some k /\ k <> "" /\ key = VStr k
  | AnthropicCreate key _ =>
      exists k, environ w "ANTHROPIC_API_KEY" = Some k /\ k <> "" /\ key = VStr k
  | _ => True
  end.

(** The first message the conversion keeps is not a user message (or
    there is none): no system message finds a place to go. *)
Definition first_kept_is_not_user (h : heap) (messages : list loc) : Prop :=
  match head (kept h messages) with
  | Some l0 => h l0 !! "role" <> Some "user"
  | None => True
  end.

(** The conversion, then the conversion again on the same list: what two
    calls with the same message objects do to them. *)
Definition converted_twice (messages : list loc) : M (list loc) :=
  _ <- anthropic_messages messages;; anthropic_messages messages.

(** A world with the given environment whose services answer every
    request with the given completion units. *)
Definition reply_world (env : gmap string string)
    (openai_reply : list (option string)) (anthropic_reply : list string) : world :=
  {| environ := fun name => env !! name;
     openai_api := fun _ _ => inr openai_reply;
     anthropic_api := fun _ _ => inr anthropic_reply |}.

(** * The command-line front end: [main.py] *)

(** ** The terminal *)

(** The machine the program runs on: the world of the gateway, and
    [os.name]. *)
Record host := {
  host_world : world;
  os_name : string }.

(** What a run of the front end does that is visible from outside. *)
Inductive effect :=
| Gateway (ev : event)
| Print (text : string)
| Input (prompt : string)
| System (command : string).

(** What ends a function other than a return: an exception of the
    gateway, the [EOFError] of [input] at the end of the input (both are
    caught by [except Exception]), or the [SystemExit] of [sys.exit],
    which is not. *)
Inductive signal :=
| Exception (e : exn)
| EOFError
| SystemExit (code : Z).

(** [str(e)] in a handler *)
Definition str_signal (s : signal) : string :=
  match s with
  | Exception e => str e
  | EOFError => "EOF when reading a line"
  | SystemExit code => NilZero.string_of_int (Z.to_int code)
  end.

Definition caught_by_except_exception (s : signal) : bool :=
  match s with
  | Exception _ | EOFError => true
  | SystemExit _ => false
  end.

(** [Unfinished]: the run was cut off by the bound put on its loop and
    on its re-entries. *)
Inductive ending (A : Type) :=
| Done (a : A)
| Stopped (s : signal)
| Unfinished.
Arguments Done {A} a.
Arguments Stopped {A} s.
Arguments Unfinished {A}.

(** A computation of the front end reads the host, may update the
    objects, consumes lines of the standard input and emits effects. *)
Definition IO (A : Type) : Type :=
  host -> heap -> list string -> ending A * heap * list string * list effect.

Definition io_ret {A} (a : A) : IO A := fun _ h stdin => (Done a, h, stdin, []).

Definition io_stop {A} (s : signal) : IO A := fun _ h stdin => (Stopped s, h, stdin, []).

Definition unfinished {A} : IO A := fun _ h stdin => (Unfinished, h, stdin, []).

Definition io_bind {A B} (m : IO A) (k : A -> IO B) : IO B :=
  fun host h stdin =>
    match m host h stdin with
    | (Done a, h1, stdin1, effs1) =>
        let '(o, h2, stdin2, effs2) := k a host h1 stdin1 in (o, h2, stdin2, effs1 ++ effs2)
    | (Stopped s, h1, stdin1, effs1) => (Stopped s, h1, stdin1, effs1)
    | (Unfinished, h1, stdin1, effs1) => (Unfinished, h1, stdin1, effs1)
    end.

(** [try: m except Exception as e: handler e] *)
Definition io_try_except {A} (m : IO A) (handler : signal -> IO A) : IO A :=
  fun host h stdin =>
    match m host h stdin with
    | (Stopped s, h1, stdin1, effs1) =>
        if caught_by_except_exception s then
          let '(o, h2, stdin2, effs2) := handler s host h1 stdin1 in
          (o, h2, stdin2, effs1 ++ effs2)
        else (Stopped s, h1, stdin1, effs1)
    | other => other
    end.

Declare Scope io_scope.
Delimit Scope io_scope with io.
Notation "x <- m ;; k" := (io_bind m (fun x => k))
  (at level 100, m at next level, right associativity) : io_scope.
Notation "m ;;; k" := (io_bind m (fun _ => k))
  (at level 100, right associativity) : io_scope.
Local Open Scope io_scope.

(** A call into [utils/call_llm.py]. *)
Definition gateway {A} (m : M A) : IO A :=
  fun host h stdin =>
    let '(o, h1, evs) := m (host_world host) h in
    (match o with Returns a => Done a | Raises e => Stopped (Exception e) end,
     h1, stdin, map Gateway evs).

(** [print(text)] *)
Definition print (text : string) : IO unit :=
  fun _ h stdin => (Done tt, h, stdin, [Print text]).

(** [input(prompt)]: the prompt is written, then a line is read,
    without its line feed; at the end of the input, [EOFError]. *)
Definition input (prompt : string) : IO string :=
  fun _ h stdin =>
    match stdin with
    | line :: rest => (Done line, h, rest, [Input prompt])
    | [] => (Stopped EOFError, h, [], [Input prompt])
    end.

(** [os.system(command)] *)
Definition os_system (command : string) : IO unit :=
  fun _ h stdin => (Done tt, h, stdin, [System command]).

(** [while True: body], where the body says whether to go on ([true])
    or to [break]; at most [fuel] rounds. *)
Fixpoint while_true (fuel : nat) (body : IO bool) : IO unit :=
  match fuel with
  | 0 => unfinished
  | S fuel' =>
      go_on <- body;;
      if go_on then while_true fuel' body else io_ret tt
  end.

(** ** Styled output *)

Module Colors.
Definition ESC : string := String "027" "".
Definition HEADER : string := ESC +:+ "[95m".
Definition BLUE : string := ESC +:+ "[94m".
Definition CYAN : string := ESC +:+ "[96m".
Definition GREEN : string := ESC +:+ "[92m".
Definition YELLOW : string := ESC +:+ "[93m".
Definition RED : string := ESC +:+ "[91m".
Definition ENDC : string := ESC +:+ "[0m".
Definition BOLD : string := ESC +:+ "[1m".
Definition UNDERLINE : string := ESC +:+ "[4m".
End Colors.

Definition LF : string := String "010" "".

(** [s * n] *)
Fixpoint times (s : string) (n : nat) : string :=
  match n with
  | 0 => ""
  | S n' => s +:+ times s n'
  end.

(** [s.center(width)] *)
Definition center (s : string) (width : nat) : string :=
  let len := py_len s in
  if width <=? len then s
  else
    let marg := width - len in
    let left := marg / 2 + (if Nat.odd marg && Nat.odd width then 1 else 0) in
    times " " left +:+ s +:+ times " " (marg - left).

(** [f"{v}"] for what [call_llm] returns, a [str]; [None] prints as
    "None".  Numbers are never returned and have no rendering here. *)
Definition format_value (v : value) : string :=
  match v with
  | VStr s => s
  | _ => "None"
  end.

Definition clear_screen : IO unit :=
  host <- (fun host h stdin => (Done host, h, stdin, []));;
  os_system (if decide (os_name host = "nt") then "cls" else "clear").

Definition print_header (text : string) : IO unit :=
  print (LF +:+ Colors.BOLD +:+ Colors.CYAN +:+ times "=" 60 +:+ Colors.ENDC);;;
  print (Colors.BOLD +:+ Colors.HEADER +:+ center text 60 +:+ Colors.ENDC);;;
  print (Colors.BOLD +:+ Colors.CYAN +:+ times "=" 60 +:+ Colors.ENDC +:+ LF).

Definition print_success (text : string) : IO unit :=
  print (Colors.GREEN +:+ "✓ " +:+ text +:+ Colors.ENDC).

Definition print_error (text : string) : IO unit :=
  print (Colors.RED +:+ "❌ " +:+ text +:+ Colors.ENDC).

Definition print_info (text : string) : IO unit :=
  print (Colors.BLUE +:+ "ℹ " +:+ text +:+ Colors.ENDC).

Definition print_prompt (text : string) : IO string :=
  input (Colors.YELLOW +:+ "▶ " +:+ text +:+ Colors.ENDC).

(** ** The functions of [main.py] *)

(** The rule printed between answers: 60 box-drawing dashes. *)
Definition rule : string := times "─" 60.

Definition test_llm_direct : IO bool :=
  print_header "Direct LLM Test";;;
  print_info "Testing LLM connection...";;;
  io_try_except
    (let test_prompt := "Say 'Hello! LLM is working!' if you can read this." in
     response <- gateway (call_llm test_prompt default_provider None default_temperature None);;
     print (LF +:+ Colors.CYAN +:+ "LLM Response:" +:+ Colors.ENDC +:+ " "
            +:+ format_value response);;;
     print_success "LLM connection successful!";;;
     io_ret true)
    (fun e =>
       print_error ("Error connecting to LLM: " +:+ str_signal e);;;
       print (LF +:+ Colors.YELLOW +:+ "Please check:" +:+ Colors.ENDC);;;
       print "  1. Your API keys are correctly set in the .env file";;;
       print "  2. You have installed all requirements: pip install -r requirements.txt";;;
       print "  3. Your internet connection is working";;;
       io_ret false).

(** The [try] statement of the loop of [run_qa_flow]: one question. *)
Definition answer_question (user_input : string) : IO unit :=
  io_try_except
    (print (LF +:+ Colors.BLUE +:+ "Thinking..." +:+ Colors.ENDC);;;
     answer <- gateway (call_llm user_input default_provider None default_temperature None);;
     print (LF +:+ Colors.GREEN +:+ "Answer:" +:+ Colors.ENDC);;;
     print (format_value answer +:+ LF);;;
     print (Colors.CYAN +:+ rule +:+ Colors.ENDC +:+ LF))
    (fun e =>
       print_error ("Error: " +:+ str_signal e);;;
       print_info "Make sure your API keys are set correctly.").

(** One round of the loop of [run_qa_flow]; [false] is its [break]. *)
Definition qa_round : IO bool :=
  user_input <- print_prompt "Enter your question (or 'quit'): ";;
  if decide (lower user_input = "quit") then
    print_info "Goodbye!";;;
    io_ret false
  else
    answer_question user_input;;;
    io_ret true.

Definition run_qa_flow (fuel : nat) : IO unit :=
  clear_screen;;;
  print_header "Q&A Flow Mode";;;
  print_info "Type 'quit' to exit";;;
  print (Colors.CYAN +:+ rule +:+ Colors.ENDC +:+ LF);;;
  while_true fuel qa_round.

(** [test_providers], given what its closing call [main()] does. *)
Definition test_providers (main : IO unit) : IO unit :=
  clear_screen;;;
  print_header "Testing LLM Providers";;;
  let test_prompt := "What is 2+2? Answer with just the number." in
  io_try_except
    (print (LF +:+ Colors.BLUE +:+ "Testing OpenAI GPT-4..." +:+ Colors.ENDC);;;
     response <- gateway (call_openai test_prompt);;
     print_success ("OpenAI: " +:+ format_value response))
    (fun e => print_error ("OpenAI Error: " +:+ str_signal e));;;
  io_try_except
    (print (LF +:+ Colors.BLUE +:+ "Testing Anthropic Claude..." +:+ Colors.ENDC);;;
     response <- gateway (call_anthropic test_prompt);;
     print_success ("Anthropic: " +:+ format_value response))
    (fun e => print_error ("Anthropic Error: " +:+ str_signal e));;;
  print (LF +:+ Colors.GREEN +:+ "Provider testing complete!" +:+ Colors.ENDC);;;
  print (Colors.CYAN +:+ rule +:+ Colors.ENDC);;;
  _ <- input (LF +:+ Colors.YELLOW +:+ "Press Enter to continue..." +:+ Colors.ENDC);;
  main.

(** [main]; [fuel] bounds the rounds of the question loop and the
    re-entries through [test_providers]. *)
Fixpoint main (fuel : nat) : IO unit :=
  clear_screen;;;
  print_header "LLM Project CLI";;;
  print (Colors.BOLD +:+ "Welcome to your LLM-powered application!" +:+ Colors.ENDC +:+ LF);;;
  working <- test_llm_direct;;
  if negb working then
    print_error (LF +:+ "Exiting due to LLM connection error.");;;
    io_stop (SystemExit 1)
  else
    print (LF +:+ Colors.CYAN +:+ "Choose an option:" +:+ Colors.ENDC);;;
    print ("  " +:+ Colors.BOLD +:+ "1." +:+ Colors.ENDC +:+ " Run Q&A mode");;;
    print ("  " +:+ Colors.BOLD +:+ "2." +:+ Colors.ENDC +:+ " Test different LLM providers");;;
    print ("  " +:+ Colors.BOLD +:+ "3." +:+ Colors.ENDC +:+ " Exit");;;
    choice <- print_prompt (LF +:+ "Enter your choice (1-3): ");;
    if decide (choice = "1") then run_qa_flow fuel
    else if decide (choice = "2") then
      test_providers (match fuel with 0 => unfinished | S fuel' => main fuel' end)
    else print_info "Goodbye!".

(** ** Observing a run of the front end *)

Definition io_ending {A} (r : ending A * heap * list string * list effect) : ending A :=
  r.1.1.1.
Definition io_heap {A} (r : ending A * heap * list string * list effect) : heap :=
  r.1.1.2.
Definition io_stdin {A} (r : ending A * heap * list string * list effect) : list string :=
  r.1.2.
Definition io_effects {A} (r : ending A * heap * list string * list effect) : list effect :=
  r.2.

(** The events of the gateway among the effects, and the client calls
    among those. *)
Definition gateway_events (effs : list effect) : list event :=
  omap (fun eff => match eff with Gateway ev => Some ev | _ => None end) effs.

Definition client_calls (effs : list effect) : list event :=
  network_calls (gateway_events effs).

(** The prompts of the single-turn requests among client calls. *)
Definition prompts_sent (evs : list event) : list (list dict) :=
  omap (fun ev => match ev with
                  | OpenAICreate _ req | AnthropicCreate _ req => Some (req_messages req)
                  | _ => None
                  end) evs.

Definition is_input (eff : effect) : bool :=
  match eff with Input _ => true | _ => false end.

(** A host for the examples. *)
Definition sample_host (env : gmap string string) (reply : exn + string) : host :=
  {| host_world := sample_world env reply; os_name := "posix" |}.

(** The prompt of the smoke test, and the single-turn call with all the
    defaults that [main.py] makes for a prompt. *)
Definition smoke_prompt : string := "Say 'Hello! LLM is working!' if you can read this.".

Definition default_call (prompt : string) : M value :=
  call_llm prompt default_provider None default_temperature None.

(** The prompt of the question loop, as [print_prompt] writes it. *)
Definition question_prompt : string :=
  Colors.YELLOW +:+ "▶ " +:+ "Enter your question (or 'quit'): " +:+ Colors.ENDC.

(** The gateway events of answering each of a list of questions in
    turn, all from the same objects. *)
Definition answers (host : host) (h : heap) (questions : list string) : list event :=
  concat (map (fun q => events (default_call q (host_world host) h)) questions).

Definition not_quit (line : string) : Prop := lower line <> "quit".

(** What [main] does once the smoke test has passed: the menu and the
    choice. *)
Definition menu (fuel : nat) : IO unit :=
  print (LF +:+ Colors.CYAN +:+ "Choose an option:" +:+ Colors.ENDC);;;
  print ("  " +:+ Colors.BOLD +:+ "1." +:+ Colors.ENDC +:+ " Run Q&A mode");;;
  print ("  " +:+ Colors.BOLD +:+ "2." +:+ Colors.ENDC +:+ " Test different LLM providers");;;
  print ("  " +:+ Colors.BOLD +:+ "3." +:+ Colors.ENDC +:+ " Exit");;;
  choice <- print_prompt (LF +:+ "Enter your choice (1-3): ");;
  if decide (choice = "1") then run_qa_flow fuel
  else if decide (choice = "2") then
    test_providers (match fuel with 0 => unfinished | S fuel' => main fuel' end)
  else print_info "Goodbye!".

(** The prompt of [test_providers]. *)
Definition providers_prompt : string := "What is 2+2? Answer with just the number.".

(** ** Requests that are sent *)

(** A key that the entry point accepts: not empty and, where the code
    tests for it ([call_llm] for OpenAI), not the placeholder. *)
Definition usable_key (c : call) (key : string) : Prop :=
  key <> ""
  /\ match c with
     | SingleTurn _ provider _ _ _ =>
         lower provider = "openai" -> key <> "YOUR_API_KEY_HERE"
     | MultiTurn _ _ _ => True
     end.

(** The conversion for Anthropic, where the call has one, returns. *)
Definition conversion_returns (c : call) (w : world) (h : heap) : Prop :=
  match c with
  | SingleTurn _ _ _ _ _ => True
  | MultiTurn messages _ _ =>
      exists out, result (anthropic_messages messages w h) = Returns out
  end.

(** The run sends a request, and one only: with the key of the chosen
    provider in the environment, the calls to the clients are exactly
    one call to that provider's client, with that key, and the call
    satisfies [P]. *)
Definition request_sent (c : call) (key : string) (w : world) (h : heap)
    (P : event -> Prop) : Prop :=
  (lower (provider_of c) = "openai" ->
   environ w "OPENAI_API_KEY" = Some key ->
   exists req,
     network_calls (events (run c w h)) = [OpenAICreate (VStr key) req]
     /\ P (OpenAICreate (VStr key) req))
  /\ (lower (provider_of c) = "anthropic" ->
      environ w "ANTHROPIC_API_KEY" = Some key ->
      conversion_returns c w h ->
      exists req,
        network_calls (events (run c w h)) = [AnthropicCreate (VStr key) req]
        /\ P (AnthropicCreate (VStr key) req)).

(** Every request of the run satisfies [P], and under a usable key (and
    a message list that is not empty) a request is sent. *)
Definition sends (c : call) (key : string) (w : world) (h : heap)
    (P : event -> Prop) : Prop :=
  Forall P (events (run c w h))
  /\ (has_messages c -> usable_key c key -> request_sent c key w h P).

(** The entry point computes [model or default], so that an empty model
    string gets the default: [call_llm] does, [call_llm_with_history]
    reads the keyword argument as it is. *)
Definition defaults_falsy_model (c : call) : Prop :=
  match c with
  | SingleTurn _ _ _ _ _ => True
  | MultiTurn _ _ _ => False
  end.

(** ** Small facts and proof support *)

Example lower_mixed : lower "OpenAI" = "openai".
Proof. reflexivity. Qed.

Example str_of_nat_12 : str_of_nat 12 = "12".
Proof. reflexivity. Qed.

Example py_len_counts_characters : py_len "héllo ✓" = 7 /\ String.length "héllo ✓" = 10.
Proof. split; reflexivity. Qed.

Ltac unfold_py :=
  unfold call_llm, call_llm_with_history, anthropic_messages, log_and_reraise,
    openai_create, anthropic_create, getenv, log_info, log_error, snapshot,
    deref, setitem, getitem, first_item, len, try_except, bind, ret, raise,
    result, final_heap, events, translated in *.

Lemma truthy_key (k : string) : k <> "" -> truthy (VStr k) = true.
Proof.
  intros Hk. simpl. destruct (String.eqb_spec k ""); [contradiction | reflexivity].
Qed.

(** ** The conversion loop, one message at a time *)

(** One iteration of the loop, read off the store. *)
Lemma anthropic_messages_from_cons (l : loc) (rest acc : list loc) (w : world) (h : heap) :
  anthropic_messages_from (l :: rest) acc w h =
  match h l !! "role" with
  | None => (Raises (KeyError "role"), h, [])
  | Some role =>
      if decide (role = "system") then
        match acc with
        | [] => anthropic_messages_from rest acc w h
        | l0 :: _ =>
            match h l0 !! "role" with
            | None => (Raises (KeyError "role"), h, [])
            | Some role0 =>
                if decide (role0 = "user") then
                  match h l !! "content", h l0 !! "content" with
                  | Some c, Some c0 =>
                      anthropic_messages_from rest acc w
                        (store h l0 (<["content" := c +:+ blank_line +:+ c0]> (h l0)))
                  | _, _ => (Raises (KeyError "content"), h, [])
                  end
                else anthropic_messages_from rest acc w h
            end
        end
      else anthropic_messages_from rest (acc ++ [l]) w h
  end.
Proof.
  cbn [anthropic_messages_from]. unfold_py.
  destruct (h l !! "role") as [role|]; [|reflexivity]. cbn.
  destruct (decide (role = "system")).
  - destruct acc as [|l0 acc'].
    + now destruct (anthropic_messages_from rest [] w h) as [[? ?] ?].
    + destruct (h l0 !! "role") as [role0|]; [|reflexivity]. cbn.
      destruct (decide (role0 = "user")).
      * destruct (h l !! "content") as [c|]; [|reflexivity]. cbn.
        destruct (h l0 !! "content") as [c0|]; [|reflexivity]. cbn.
        now destruct (anthropic_messages_from rest (l0 :: acc') w _) as [[? ?] ?].
      * now destruct (anthropic_messages_from rest (l0 :: acc') w h) as [[? ?] ?].
  - now destruct (anthropic_messages_from rest (acc ++ [l]) w h) as [[? ?] ?].
Qed.

Lemma anthropic_messages_from_nil (acc : list loc) (w : world) (h : heap) :
  anthropic_messages_from [] acc w h = (Returns acc, h, []).
Proof. reflexivity. Qed.

(** The loop talks to nobody. *)
Lemma anthropic_messages_from_events (messages acc : list loc) (w : world) (h : heap) :
  events (anthropic_messages_from messages acc w h) = [].
Proof.
  revert acc h. induction messages as [|l rest IH]; intros acc h; [reflexivity|].
  rewrite anthropic_messages_from_cons.
  repeat case_match; auto.
Qed.

Lemma store_keeps (h : heap) (l0 l : loc) (v : string) (k : string) :
  k <> "content" ->
  store h l0 (<["content" := v]> (h l0)) l !! k = h l !! k.
Proof.
  intros Hk. unfold store. destruct (decide (l = l0)) as [->|]; [|reflexivity].
  now rewrite lookup_insert_ne.
Qed.

(** The loop writes the "content" key only: every other key of every
    object, the role in particular, is as it was. *)
Lemma anthropic_messages_from_keeps (messages acc : list loc) (w : world) (h : heap)
    (l : loc) (k : string) :
  k <> "content" ->
  final_heap (anthropic_messages_from messages acc w h) l !! k = h l !! k.
Proof.
  intros Hk. revert acc h.
  induction messages as [|m rest IH]; intros acc h; [reflexivity|].
  rewrite anthropic_messages_from_cons.
  repeat case_match; auto.
  rewrite IH. now apply store_keeps.
Qed.

(** The references the loop returns: those it started with, then the
    messages whose role is not "system", in their order. *)
Lemma anthropic_messages_from_returns (messages acc out : list loc) (w : world) (h : heap) :
  result (anthropic_messages_from messages acc w h) = Returns out ->
  out = acc ++ filter (fun l => h l !! "role" <> Some "system") messages.
Proof.
  revert acc h. induction messages as [|m rest IH]; intros acc h.
  - cbn. intros [= <-]. now rewrite app_nil_r.
  - rewrite anthropic_messages_from_cons.
    destruct (h m !! "role") as [role|] eqn:Hrole; [|discriminate].
    destruct (decide (role = "system")) as [->|Hns].
    + rewrite filter_cons_False by (intros Hn; now apply Hn).
      assert (Hsame : forall h' : heap, (forall l', h' l' !! "role" = h l' !! "role") ->
        filter (fun l => h' l !! "role" <> Some "system") rest
        = filter (fun l => h l !! "role" <> Some "system") rest).
      { intros h' Hh'. apply list_filter_iff. intros l'. now rewrite Hh'. }
      repeat case_match; try discriminate; intros Hout; apply IH in Hout; auto.
      rewrite Hout. f_equal. apply Hsame. intros l'. now apply store_keeps.
    + rewrite filter_cons_True by (rewrite Hrole; congruence).
      intros Hout. apply IH in Hout. now rewrite <- app_assoc in Hout.
Qed.

(** No message with the role "system" is handed on. *)
Lemma anthropic_messages_no_system (messages out : list loc) (w : world) (h : heap) (l : loc) :
  result (anthropic_messages messages w h) = Returns out ->
  l ∈ out ->
  final_heap (anthropic_messages messages w h) l !! "role" <> Some "system".
Proof.
  unfold anthropic_messages. intros Hout Hl.
  apply anthropic_messages_from_returns in Hout. subst out. cbn in Hl.
  apply list_elem_of_filter in Hl as [Hl _].
  now rewrite anthropic_messages_from_keeps.
Qed.

(** ** System messages that meet no user message at index 0 *)

Lemma anthropic_messages_from_skip (pre post acc : list loc) (s : loc) (w : world) (h : heap) :
  h s !! "role" = Some "system" ->
  (forall l, l ∈ pre -> h l !! "role" <> Some "user") ->
  nothing_to_fold_into h acc ->
  anthropic_messages_from (pre ++ s :: post) acc w h
  = anthropic_messages_from (pre ++ post) acc w h.
Proof.
  intros Hs. revert acc. induction pre as [|m pre IH]; intros acc Hpre Hacc.
  - cbn [app]. rewrite anthropic_messages_from_cons, Hs.
    destruct (decide ("system" = "system")); [|congruence].
    destruct acc as [|l0 acc']; [reflexivity|].
    destruct Hacc as (role0 & -> & Hne).
    now destruct (decide (role0 = "user")).
  - cbn [app]. rewrite !anthropic_messages_from_cons.
    assert (Hpre' : forall l, l ∈ pre -> h l !! "role" <> Some "user").
    { intros l Hl. apply Hpre. now right. }
    destruct (h m !! "role") as [role|] eqn:Hrole; [|reflexivity].
    destruct (decide (role = "system")) as [->|Hns].
    + destruct acc as [|l0 acc']; [now apply IH|].
      pose proof Hacc as (role0 & Hrole0 & Hne). rewrite Hrole0.
      destruct (decide (role0 = "user")); [contradiction|]. now apply IH.
    + apply IH; [assumption|].
      destruct acc as [|l0 acc']; [|exact Hacc].
      exists role. split; [assumption|].
      intros ->. apply (Hpre m); [now left | assumption].
Qed.

Lemma system_without_earlier_user_is_dropped_in_loop
    (pre post : list loc) (s : loc) (w : world) (h : heap) :
  h s !! "role" = Some "system" ->
  (forall l, l ∈ pre -> h l !! "role" <> Some "user") ->
  anthropic_messages (pre ++ s :: post) w h = anthropic_messages (pre ++ post) w h.
Proof.
  intros Hs Hpre. unfold anthropic_messages. now apply anthropic_messages_from_skip.
Qed.

(** C4. In the conversion for Anthropic, a system message that no user
    message precedes is silently dropped: the loop ends with the same
    outcome, the same objects and the same references as on the
    sequence without that message, so that nothing of the message, its
    content included, reaches the translated sequence; and no object of
    the translated sequence has the role "system". *)
Theorem system_without_earlier_user_is_dropped
    (pre post : list loc) (s : loc) (w : world) (h : heap) :
  h s !! "role" = Some "system" ->
  (forall l, l ∈ pre -> h l !! "role" <> Some "user") ->
  anthropic_messages (pre ++ s :: post) w h = anthropic_messages (pre ++ post) w h
  /\ forall out l,
       result (anthropic_messages (pre ++ s :: post) w h) = Returns out ->
       l ∈ out ->
       final_heap (anthropic_messages (pre ++ s :: post) w h) l !! "role" <> Some "system".
Proof.
  intros Hs Hpre. split.
  - now apply system_without_earlier_user_is_dropped_in_loop.
  - intros out l. apply anthropic_messages_no_system.
Qed.

(** ** Several system messages after a leading user message *)

Lemma system_contents_store (h : heap) (l0 : loc) (v : string) (messages : list loc) :
  h l0 !! "role" = Some "user" ->
  system_contents (store h l0 (<["content" := v]> (h l0))) messages
  = system_contents h messages.
Proof.
  intros Hl0. unfold system_contents.
  induction messages as [|l ls IH]; [reflexivity|].
  csimpl. rewrite IH, store_keeps by discriminate.
  destruct (decide (h l !! "role" = Some "system")) as [Hsys|]; [|reflexivity].
  unfold store. destruct (decide (l = l0)) as [->|]; [congruence | reflexivity].
Qed.

Lemma readable_store (h : heap) (l0 : loc) (v : string) (messages : list loc) :
  h l0 !! "role" = Some "user" ->
  readable h messages ->
  readable (store h l0 (<["content" := v]> (h l0))) messages.
Proof.
  intros Hl0 Hwf l Hl. destruct (Hwf l Hl) as [Hrole Hcontent].
  rewrite store_keeps by discriminate. split; [assumption|].
  intros Hsys. unfold store.
  destruct (decide (l = l0)) as [->|]; [congruence | now apply Hcontent].
Qed.

Lemma system_contents_cons (h : heap) (m : loc) (rest : list loc) :
  system_contents h (m :: rest)
  = match h m !! "role", h m !! "content" with
    | Some role, Some c =>
        if decide (role = "system") then c :: system_contents h rest
        else system_contents h rest
    | _, _ => system_contents h rest
    end.
Proof.
  unfold system_contents. csimpl.
  destruct (h m !! "role") as [role|]; [|now destruct (decide _)].
  destruct (decide (Some role = Some "system")) as [[= ->]|Hne].
  - destruct (decide ("system" = "system")); [|congruence].
    now destruct (h m !! "content").
  - destruct (decide (role = "system")); [congruence|].
    now destruct (h m !! "content").
Qed.

Lemma anthropic_messages_from_user_first
    (rest acc : list loc) (l0 : loc) (c0 : string) (w : world) (h : heap) :
  h l0 !! "role" = Some "user" ->
  h l0 !! "content" = Some c0 ->
  readable h rest ->
  exists out,
    result (anthropic_messages_from rest (l0 :: acc) w h) = Returns (l0 :: out)
    /\ final_heap (anthropic_messages_from rest (l0 :: acc) w h) l0 !! "content"
       = Some (fold_left (fun content c => prepend_system c content)
                 (system_contents h rest) c0).
Proof.
  revert acc c0 h. induction rest as [|m rest IH]; intros acc c0 h Hrole0 Hc0 Hwf.
  - exists acc. split; [reflexivity | exact Hc0].
  - assert (Hrest : readable h rest).
    { intros l Hl. apply Hwf. now right. }
    destruct (Hwf m) as [[role Hrole] Hcontent]; [now left|].
    rewrite anthropic_messages_from_cons, system_contents_cons, Hrole.
    destruct (decide (role = "system")) as [->|Hns].
    + destruct (Hcontent Hrole) as [c Hc].
      rewrite Hrole0, Hc, Hc0.
      destruct (decide ("user" = "user")); [|congruence].
      cbn [fold_left].
      rewrite <- (system_contents_store h l0 (c +:+ blank_line +:+ c0) rest)
        by assumption.
      apply IH.
      * unfold store. destruct (decide (l0 = l0)); [|congruence].
        now rewrite lookup_insert_ne.
      * unfold store. destruct (decide (l0 = l0)); [|congruence].
        now rewrite lookup_insert_eq.
      * now apply readable_store.
    + change ((l0 :: acc) ++ [m]) with (l0 :: (acc ++ [m])).
      destruct (h m !! "content"); now apply IH.
Qed.

(** C9. In the conversion for Anthropic, when the first message is a
    user message, every later system message is prepended in turn to
    the first message's content: in the end that content is the system
    contents in the reverse of their input order, each followed by a
    blank line, and then the original user content.  The loop returns
    the first message and, after it, the messages that are not system
    messages. *)
Theorem system_contents_prepended_in_reverse
    (first : loc) (rest : list loc) (user_content : string) (w : world) (h : heap) :
  h first !! "role" = Some "user" ->
  h first !! "content" = Some user_content ->
  readable h rest ->
  result (anthropic_messages (first :: rest) w h)
  = Returns (first :: filter (fun l => h l !! "role" <> Some "system") rest)
  /\ final_heap (anthropic_messages (first :: rest) w h) first !! "content"
     = Some (fold_right prepend_system user_content (rev (system_contents h rest))).
Proof.
  intros Hrole Hcontent Hwf.
  unfold anthropic_messages. rewrite anthropic_messages_from_cons, Hrole.
  destruct (decide ("user" = "system")); [discriminate|].
  rewrite fold_left_rev_right. change ([] ++ [first]) with [first].
  destruct (anthropic_messages_from_user_first rest [] first user_content w h)
    as (out & Hout & Hfolded); [assumption..|].
  split; [|exact Hfolded].
  rewrite Hout. now apply anthropic_messages_from_returns in Hout as ->.
Qed.

(** ** Dispatch on the provider name *)

Lemma call_llm_unsupported (prompt provider : string) (model : option string)
    (temperature : float) (max_tokens : option Z) (w : world) (h : heap) :
  lower provider <> "openai" ->
  lower provider <> "anthropic" ->
  call_llm prompt provider model temperature max_tokens w h
  = (Raises (ValueError ("Unsupported provider: " +:+ provider)), h,
     [LogInfo ("Calling " +:+ provider +:+ " LLM with prompt length: "
               +:+ str_of_nat (py_len prompt));
      LogError (("Error calling " +:+ provider +:+ " LLM: ")
                +:+ "Unsupported provider: " +:+ provider)]).
Proof.
  intros Ho Ha. unfold_py.
  destruct (decide (lower provider = "openai")); [contradiction|].
  destruct (decide (lower provider = "anthropic")); [contradiction|].
  reflexivity.
Qed.

Lemma call_llm_with_history_unsupported (m : loc) (messages : list loc) (provider : string)
    (kwargs : gmap string value) (w : world) (h : heap) :
  lower provider <> "openai" ->
  lower provider <> "anthropic" ->
  call_llm_with_history (m :: messages) provider kwargs w h
  = (Returns VNone, h,
     [LogInfo ("Calling " +:+ provider +:+ " with "
               +:+ str_of_nat (length (m :: messages)) +:+ " messages")]).
Proof.
  intros Ho Ha. unfold_py.
  destruct (decide (lower provider = "openai")); [contradiction|].
  destruct (decide (lower provider = "anthropic")); [contradiction|].
  reflexivity.
Qed.

(** ** Credentials *)

Lemma call_llm_openai_no_key (prompt provider : string) (model : option string)
    (temperature : float) (max_tokens : option Z) (w : world) (h : heap) :
  lower provider = "openai" ->
  no_openai_key (environ w "OPENAI_API_KEY") ->
  result (call_llm prompt provider model temperature max_tokens w h)
  = Raises (ValueError "OPENAI_API_KEY not found in environment variables")
  /\ network_calls (events (call_llm prompt provider model temperature max_tokens w h)) = [].
Proof.
  intros Hp Hk. unfold_py.
  destruct (decide (lower provider = "openai")); [|contradiction].
  destruct Hk as [->|[->| ->]]; now cbn.
Qed.

Lemma call_llm_anthropic_no_key (prompt provider : string) (model : option string)
    (temperature : float) (max_tokens : option Z) (w : world) (h : heap) :
  lower provider = "anthropic" ->
  no_key (environ w "ANTHROPIC_API_KEY") ->
  result (call_llm prompt provider model temperature max_tokens w h)
  = Raises (ValueError "ANTHROPIC_API_KEY not found in environment variables")
  /\ network_calls (events (call_llm prompt provider model temperature max_tokens w h)) = [].
Proof.
  intros Hp Hk. unfold_py.
  destruct (decide (lower provider = "openai")); [congruence|].
  destruct (decide (lower provider = "anthropic")); [|contradiction].
  destruct Hk as [->| ->]; now cbn.
Qed.

Lemma call_llm_with_history_no_key (m : loc) (messages : list loc) (provider : string)
    (kwargs : gmap string value) (w : world) (h : heap) :
  (lower provider = "openai" /\ no_key (environ w "OPENAI_API_KEY")) \/
  (lower provider = "anthropic" /\ no_key (environ w "ANTHROPIC_API_KEY")) ->
  (exists msg,
     result (call_llm_with_history (m :: messages) provider kwargs w h)
     = Raises (ValueError msg))
  /\ network_calls (events (call_llm_with_history (m :: messages) provider kwargs w h)) = [].
Proof.
  intros [[Hp Hk]|[Hp Hk]]; unfold_py.
  - destruct (decide (lower provider = "openai")); [|contradiction].
    destruct Hk as [->| ->]; cbn; eauto.
  - destruct (decide (lower provider = "openai")); [congruence|].
    destruct (decide (lower provider = "anthropic")); [|contradiction].
    destruct Hk as [->| ->]; cbn; eauto.
Qed.

(** ** The request each path builds *)

Lemma call_llm_network_calls (prompt provider : string) (model : option string)
    (temperature : float) (max_tokens : option Z) (w : world) (h : heap) :
  network_calls (events (call_llm prompt provider model temperature max_tokens w h))
  = if decide (lower provider = "openai") then
      let api_key := of_opt_str (environ w "OPENAI_API_KEY") in
      if negb (truthy api_key) || eq_str api_key "YOUR_API_KEY_HERE" then []
      else [OpenAICreate api_key
              {| req_model := or_else (of_opt_str model) (VStr "gpt-4o");
                 req_messages := [user_message prompt];
                 req_temperature := VFloat temperature;
                 req_max_tokens := of_opt_int max_tokens |}]
    else if decide (lower provider = "anthropic") then
      let api_key := of_opt_str (environ w "ANTHROPIC_API_KEY") in
      if negb (truthy api_key) then []
      else [AnthropicCreate api_key
              {| req_model := or_else (of_opt_str model) (VStr "claude-3-opus-20240229");
                 req_messages := [user_message prompt];
                 req_temperature := VFloat temperature;
                 req_max_tokens := or_else (of_opt_int max_tokens) (VInt 4096) |}]
    else [].
Proof.
  unfold_py. cbn zeta.
  destruct (decide (lower provider = "openai")) as [Ho|Ho].
  - destruct (negb _ || _); [reflexivity|].
    destruct (openai_api w _ _) as [e|[|[c|] cs]]; reflexivity.
  - destruct (decide (lower provider = "anthropic")) as [Ha|Ha]; [|reflexivity].
    destruct (negb _); [reflexivity|].
    destruct (anthropic_api w _ _) as [e|[|c cs]]; reflexivity.
Qed.

Lemma call_llm_with_history_network_calls (messages : list loc) (provider : string)
    (kwargs : gmap string value) (w : world) (h : heap) :
  network_calls (events (call_llm_with_history messages provider kwargs w h))
  = match messages with
    | [] => []
    | _ :: _ =>
        if decide (lower provider = "openai") then
          let api_key := of_opt_str (environ w "OPENAI_API_KEY") in
          if negb (truthy api_key) then []
          else [OpenAICreate api_key
                  {| req_model := kwargs_get kwargs "model" (VStr "gpt-4o");
                     req_messages := map h messages;
                     req_temperature := kwargs_get kwargs "temperature" (VFloat default_temperature);
                     req_max_tokens := kwargs_get kwargs "max_tokens" VNone |}]
        else if decide (lower provider = "anthropic") then
          let api_key := of_opt_str (environ w "ANTHROPIC_API_KEY") in
          if negb (truthy api_key) then []
          else
            match translated (anthropic_messages messages w h) with
            | Some sent =>
                [AnthropicCreate api_key
                   {| req_model := kwargs_get kwargs "model" (VStr "claude-3-opus-20240229");
                      req_messages := sent;
                      req_temperature := kwargs_get kwargs "temperature" (VFloat default_temperature);
                      req_max_tokens := kwargs_get kwargs "max_tokens" (VInt 4096) |}]
            | None => []
            end
        else []
    end.
Proof.
  destruct messages as [|m messages]; [reflexivity|].
  pose proof (anthropic_messages_from_events (m :: messages) [] w h) as Hevs.
  unfold_py. cbn zeta.
  destruct (decide (lower provider = "openai")) as [Ho|Ho].
  - destruct (negb _); [reflexivity|].
    destruct (openai_api w _ _) as [e|[|c cs]]; reflexivity.
  - destruct (decide (lower provider = "anthropic")) as [Ha|Ha]; [|reflexivity].
    destruct (negb _); [reflexivity|].
    destruct (anthropic_messages_from (m :: messages) [] w h) as [[[out|e'] h'] evs];
      cbn in Hevs; subst evs; [|reflexivity].
    cbn. destruct (anthropic_api w _ _) as [e|[|c cs]]; reflexivity.
Qed.

(** What C4 means for the request: for Anthropic, the run on the
    sequence with the dropped system message calls the client with the
    request of the run without it. *)
Lemma dropped_system_message_is_not_sent (pre post : list loc) (s : loc)
    (provider : string) (kwargs : gmap string value) (w : world) (h : heap) :
  lower provider = "anthropic" ->
  h s !! "role" = Some "system" ->
  (forall l, l ∈ pre -> h l !! "role" <> Some "user") ->
  pre ++ post <> [] ->
  network_calls (events (call_llm_with_history (pre ++ s :: post) provider kwargs w h))
  = network_calls (events (call_llm_with_history (pre ++ post) provider kwargs w h)).
Proof.
  intros Hp Hs Hpre Hne.
  rewrite !call_llm_with_history_network_calls. cbn zeta.
  rewrite (system_without_earlier_user_is_dropped_in_loop pre post s w h Hs Hpre).
  destruct (pre ++ s :: post) as [|m ms] eqn:Hwith; [now destruct pre|].
  destruct (pre ++ post) as [|m' ms'] eqn:Hwithout; [contradiction|].
  destruct (decide (lower provider = "openai")) as [Ho|Ho]; [congruence|].
  reflexivity.
Qed.

(** ** Faults of the provider clients *)

(** C3, as the code has it.  When a provider client raises, either entry
    point re-raises that very exception, so the caller gets the original
    fault and its message and no result; the provider name is joined to
    the fault message in the error record that is logged last, not in
    the exception; and the run made exactly one call to a client. *)
Theorem client_fault_logged_then_reraised (c : call) (w : world) (h : heap) (e : exn) :
  In e (client_faults w (events (run c w h))) ->
  result (run c w h) = Raises e
  /\ length (network_calls (events (run c w h))) = 1
  /\ last (events (run c w h)) = Some (LogError (error_prefix c +:+ str e)).
Proof.
  destruct c as [prompt provider model temperature max_tokens|messages provider kwargs];
    cbn [run error_prefix].
  - unfold_py. cbn zeta.
    destruct (decide (lower provider = "openai")) as [Ho|Ho].
    + destruct (negb _ || _); [now cbn|].
      destruct (openai_api w _ _) as [e'|[|[c|] cs]] eqn:Hapi;
        cbn in Hapi |- *; rewrite Hapi; cbn; try tauto.
      intros [<-|[]]. auto.
    + destruct (decide (lower provider = "anthropic")) as [Ha|Ha]; [|now cbn].
      destruct (negb _); [now cbn|].
      destruct (anthropic_api w _ _) as [e'|[|c cs]] eqn:Hapi;
        cbn in Hapi |- *; rewrite Hapi; cbn; try tauto.
      intros [<-|[]]. auto.
  - destruct messages as [|m messages]; [now cbn|].
    pose proof (anthropic_messages_from_events (m :: messages) [] w h) as Hevs.
    unfold_py. cbn zeta.
    destruct (decide (lower provider = "openai")) as [Ho|Ho].
    + destruct (negb _); [now cbn|].
      destruct (openai_api w _ _) as [e'|[|c cs]] eqn:Hapi;
        cbn in Hapi |- *; rewrite Hapi; cbn; try tauto.
      intros [<-|[]]. auto.
    + destruct (decide (lower provider = "anthropic")) as [Ha|Ha]; [|now cbn].
      destruct (negb _); [now cbn|].
      destruct (anthropic_messages_from (m :: messages) [] w h) as [[[out|e'] h'] evs];
        cbn in Hevs; subst evs; [|now cbn].
      cbn. destruct (anthropic_api w _ _) as [e'|[|c cs]] eqn:Hapi;
        cbn in Hapi |- *; rewrite Hapi; cbn; try tauto.
      intros [<-|[]]. auto.
Qed.

(** ** Defaults for [max_tokens] and [model] *)

Lemma Forall_network_calls (P : event -> Prop) (evs : list event) :
  (forall ev, is_network_call ev = false -> P ev) ->
  Forall P (network_calls evs) ->
  Forall P evs.
Proof.
  intros Hother. unfold network_calls.
  induction evs as [|ev evs IH]; cbn; [constructor|].
  destruct (is_network_call ev) eqn:Hev.
  - intros Hall. inversion Hall; subst. constructor; auto.
  - intros Hall. constructor; auto.
Qed.

Lemma run_network_calls (c : call) (w : world) (h : heap) :
  network_calls (events (run c w h)) = []
  \/ exists ev, network_calls (events (run c w h)) = [ev].
Proof.
  destruct c as [prompt provider model temperature max_tokens|messages provider kwargs];
    cbn [run].
  - rewrite call_llm_network_calls. cbn zeta.
    repeat case_match; (now left) || (right; eexists; reflexivity).
  - rewrite call_llm_with_history_network_calls. cbn zeta.
    repeat case_match; (now left) || (right; eexists; reflexivity).
Qed.

Lemma eq_str_other (k s : string) : k <> s -> eq_str (VStr k) s = false.
Proof.
  intros Hk. cbn. destruct (String.eqb_spec k s); [contradiction | reflexivity].
Qed.

(** With a usable key, a call for OpenAI reaches the OpenAI client, once. *)
Lemma run_reaches_openai (c : call) (key : string) (w : world) (h : heap) :
  has_messages c ->
  usable_key c key ->
  lower (provider_of c) = "openai" ->
  environ w "OPENAI_API_KEY" = Some key ->
  exists req, network_calls (events (run c w h)) = [OpenAICreate (VStr key) req].
Proof.
  intros Hc [Hne Hplaceholder] Hp Hkey.
  destruct c as [prompt provider model temperature max_tokens|[|m messages] provider kwargs];
    cbn [run provider_of has_messages] in *; [| contradiction |].
  - rewrite call_llm_network_calls. cbn zeta.
    destruct (decide (lower provider = "openai")); [|contradiction].
    rewrite Hkey. cbn [of_opt_str].
    rewrite (truthy_key key Hne), (eq_str_other key _ (Hplaceholder Hp)). cbn. eauto.
  - rewrite call_llm_with_history_network_calls. cbn zeta.
    destruct (decide (lower provider = "openai")); [|contradiction].
    rewrite Hkey. cbn [of_opt_str]. rewrite (truthy_key key Hne). cbn. eauto.
Qed.

(** With a usable key, a call for Anthropic whose conversion returns
    reaches the Anthropic client, once. *)
Lemma run_reaches_anthropic (c : call) (key : string) (w : world) (h : heap) :
  has_messages c ->
  usable_key c key ->
  lower (provider_of c) = "anthropic" ->
  environ w "ANTHROPIC_API_KEY" = Some key ->
  conversion_returns c w h ->
  exists req, network_calls (events (run c w h)) = [AnthropicCreate (VStr key) req].
Proof.
  intros Hc [Hne _] Hp Hkey Hconv.
  destruct c as [prompt provider model temperature max_tokens|[|m messages] provider kwargs];
    cbn [run provider_of has_messages conversion_returns] in *; [| contradiction |].
  - rewrite call_llm_network_calls. cbn zeta.
    destruct (decide (lower provider = "openai")); [congruence|].
    destruct (decide (lower provider = "anthropic")); [|contradiction].
    rewrite Hkey. cbn [of_opt_str]. rewrite (truthy_key key Hne). cbn. eauto.
  - destruct Hconv as [out Hout].
    rewrite call_llm_with_history_network_calls. cbn zeta.
    destruct (decide (lower provider = "openai")); [congruence|].
    destruct (decide (lower provider = "anthropic")); [|contradiction].
    rewrite Hkey. cbn [of_opt_str]. rewrite (truthy_key key Hne).
    unfold translated. rewrite Hout. cbn. eauto.
Qed.

(** What holds of every request of a run holds of the request that the
    run does send. *)
Lemma sends_intro (c : call) (key : string) (w : world) (h : heap) (P : event -> Prop) :
  Forall P (events (run c w h)) -> sends c key w h P.
Proof.
  intros Hall. split; [exact Hall|]. intros Hc Hk.
  assert (Hone : forall ev, network_calls (events (run c w h)) = [ev] -> P ev).
  { intros ev Hev. apply (proj1 (List.Forall_forall P _) Hall).
    apply (proj1 (List.filter_In is_network_call ev (events (run c w h)))).
    fold (network_calls (events (run c w h))). rewrite Hev. now left. }
  split.
  - intros Hp Hkey.
    destruct (run_reaches_openai c key w h Hc Hk Hp Hkey) as [req Hreq]. eauto.
  - intros Hp Hkey Hconv.
    destruct (run_reaches_anthropic c key w h Hc Hk Hp Hkey Hconv) as [req Hreq]. eauto.
Qed.

Lemma max_tokens_of_every_request (c : call) (w : world) (h : heap) :
  max_tokens_omitted c ->
  Forall (sends_max_tokens VNone (VInt 4096)) (events (run c w h)).
Proof.
  intros Hc. apply Forall_network_calls; [now intros []|].
  destruct c as [prompt provider model temperature max_tokens|messages provider kwargs];
    cbn [run]; cbn in Hc.
  - subst max_tokens. rewrite call_llm_network_calls. cbn zeta.
    repeat case_match; repeat constructor.
  - rewrite call_llm_with_history_network_calls. cbn zeta. unfold kwargs_get. rewrite Hc.
    repeat case_match; repeat constructor.
Qed.

(** C7. When the caller gives no [max_tokens], either entry point sends
    its request to the OpenAI client with [max_tokens=None] (the field
    is left to the provider) and to the Anthropic client with
    [max_tokens=4096]: with the provider's key in the environment the
    run makes exactly one call, to that provider's client, with that
    value; and no request of any run has another value. *)
Theorem max_tokens_when_omitted (c : call) (key : string) (w : world) (h : heap) :
  max_tokens_omitted c ->
  sends c key w h (sends_max_tokens VNone (VInt 4096)).
Proof. intros Hc. now apply sends_intro, max_tokens_of_every_request. Qed.

Lemma model_of_every_request (c : call) (w : world) (h : heap) :
  (model_field c = None ->
   Forall (sends_model (VStr "gpt-4o") (VStr "claude-3-opus-20240229"))
     (events (run c w h)))
  /\ (forall m, model_field c = Some (VStr m) -> m <> "" \/ ~ defaults_falsy_model c ->
      Forall (sends_model (VStr m) (VStr m)) (events (run c w h)))
  /\ (model_field c = Some (VStr "") -> defaults_falsy_model c ->
      Forall (sends_model (VStr "gpt-4o") (VStr "claude-3-opus-20240229"))
        (events (run c w h))).
Proof.
  split; [|split].
  - intros Hc. apply Forall_network_calls; [now intros []|].
    destruct c as [prompt provider model temperature max_tokens|messages provider kwargs];
      cbn [run]; cbn in Hc.
    + destruct model; [discriminate|]. rewrite call_llm_network_calls. cbn zeta.
      repeat case_match; repeat constructor.
    + rewrite call_llm_with_history_network_calls. cbn zeta. unfold kwargs_get. rewrite Hc.
      repeat case_match; repeat constructor.
  - intros m Hc Hm. apply Forall_network_calls; [now intros []|].
    destruct c as [prompt provider model temperature max_tokens|messages provider kwargs];
      cbn [run]; cbn in Hc, Hm.
    + destruct model as [m'|]; [|discriminate]. injection Hc as ->.
      assert (Hne : m <> "") by tauto.
      rewrite call_llm_network_calls. cbn zeta. unfold or_else. cbn [of_opt_str].
      rewrite (truthy_key m Hne).
      repeat case_match; repeat constructor.
    + rewrite call_llm_with_history_network_calls. cbn zeta. unfold kwargs_get. rewrite Hc.
      repeat case_match; repeat constructor.
  - intros Hc Hfalsy. apply Forall_network_calls; [now intros []|].
    destruct c as [prompt provider model temperature max_tokens|messages provider kwargs];
      cbn [run]; cbn in Hc, Hfalsy; [|contradiction].
    destruct model as [m'|]; [|discriminate]. injection Hc as ->.
    rewrite call_llm_network_calls. cbn zeta.
    repeat case_match; repeat constructor.
Qed.

(** C8, as the code has it.  Without a [model] from the caller, either
    entry point sends its request with the provider's default model.
    With a model string from the caller it sends that string as it is;
    the one exception is the empty string given to [call_llm], whose
    [model or default] replaces it by the provider's default, while
    [call_llm_with_history] sends the empty string too.  In each case
    the request is sent (one call, to the chosen provider's client,
    once its key is in the environment), and no request of any run
    names another model. *)
Theorem model_default_and_override (c : call) (key : string) (w : world) (h : heap) :
  (model_field c = None ->
   sends c key w h (sends_model (VStr "gpt-4o") (VStr "claude-3-opus-20240229")))
  /\ (forall m, model_field c = Some (VStr m) -> m <> "" \/ ~ defaults_falsy_model c ->
      sends c key w h (sends_model (VStr m) (VStr m)))
  /\ (model_field c = Some (VStr "") -> defaults_falsy_model c ->
      sends c key w h (sends_model (VStr "gpt-4o") (VStr "claude-3-opus-20240229"))).
Proof.
  destruct (model_of_every_request c w h) as (Hdefault & Hgiven & Hempty).
  split; [|split].
  - intros Hc. now apply sends_intro, Hdefault.
  - intros m Hc Hm. now apply sends_intro, Hgiven.
  - intros Hc Hfalsy. now apply sends_intro, Hempty.
Qed.

(** C10. [call_llm] for Anthropic with [max_tokens=0] and a usable key
    sends exactly one request, and that request has [max_tokens=4096]:
    [max_tokens or 4096] replaces the 0. *)
Theorem anthropic_zero_max_tokens_becomes_4096 (prompt provider : string)
    (model : option string) (temperature : float) (key : string) (w : world) (h : heap) :
  lower provider = "anthropic" ->
  environ w "ANTHROPIC_API_KEY" = Some key ->
  key <> "" ->
  network_calls (events (call_llm prompt provider model temperature (Some 0%Z) w h))
  = [AnthropicCreate (VStr key)
       {| req_model := or_else (of_opt_str model) (VStr "claude-3-opus-20240229");
          req_messages := [user_message prompt];
          req_temperature := VFloat temperature;
          req_max_tokens := VInt 4096 |}].
Proof.
  intros Hp Hkey Hne. rewrite call_llm_network_calls, Hkey. cbn zeta. cbn [of_opt_str].
  destruct (decide (lower provider = "openai")) as [Ho|Ho]; [congruence|].
  destruct (decide (lower provider = "anthropic")) as [Ha|Ha]; [|contradiction].
  now rewrite (truthy_key key Hne).
Qed.

(** C5. With an empty message list, [call_llm_with_history] raises its
    [ValueError] at once, whatever the provider: no environment variable
    is read, no client is called, nothing is logged, no object is
    touched. *)
Theorem empty_messages_rejected_first (provider : string) (kwargs : gmap string value)
    (w : world) (h : heap) :
  call_llm_with_history [] provider kwargs w h
  = (Raises (ValueError "Messages list cannot be empty"), h, []).
Proof. reflexivity. Qed.

(** ** The claims on concrete runs *)

Example user_then_system_is_folded :
  translated (anthropic_messages [1; 0] (sample_world both_keys (inr "T")) sample_heap)
  = Some [user_message ("You are a helpful assistant." +:+ blank_line +:+ "What is Python?")].
Proof. vm_compute. reflexivity. Qed.

(** The same user object twice in the list: the write through index 0
    shows at both places, and in the caller's object afterwards. *)
Example shared_user_message_is_folded_once :
  translated (anthropic_messages [1; 0; 1] (sample_world both_keys (inr "T")) sample_heap)
  = Some [user_message ("You are a helpful assistant." +:+ blank_line +:+ "What is Python?");
          user_message ("You are a helpful assistant." +:+ blank_line +:+ "What is Python?")]
  /\ final_heap (anthropic_messages [1; 0; 1] (sample_world both_keys (inr "T")) sample_heap) 1
     = user_message ("You are a helpful assistant." +:+ blank_line +:+ "What is Python?").
Proof. split; vm_compute; reflexivity. Qed.

(** A message without a role stops the loop. *)
Example message_without_role_raises :
  result (anthropic_messages [1; 5] (sample_world both_keys (inr "T")) sample_heap)
  = Raises (KeyError "role").
Proof. vm_compute. reflexivity. Qed.

Example fault_carries_its_message :
  carries (ClientError "Connection error.") "Connection error.".
Proof. exists 0. vm_compute. reflexivity. Qed.

(** C1 on the conversation [system, user]: the Anthropic request holds
    the user message with its content unchanged.  The system content is
    not prepended to it and is sent nowhere. *)
Theorem leading_system_message_is_lost :
  translated (anthropic_messages [0; 1] (sample_world both_keys (inr "T")) sample_heap)
  = Some [user_message "What is Python?"]
  /\ network_calls (events (call_llm_with_history [0; 1] "anthropic" ∅
                              (sample_world both_keys (inr "T")) sample_heap))
     = [AnthropicCreate (VStr "sk-ant-test")
          {| req_model := VStr "claude-3-opus-20240229";
             req_messages := [user_message "What is Python?"];
             req_temperature := VFloat default_temperature;
             req_max_tokens := VInt 4096 |}]
  /\ user_message "What is Python?"
     <> user_message ("You are a helpful assistant." +:+ blank_line +:+ "What is Python?").
Proof.
  split; [|split].
  - vm_compute. reflexivity.
  - vm_compute. reflexivity.
  - intros Heq. apply (f_equal (fun d : dict => d !! "content")) in Heq.
    vm_compute in Heq. discriminate Heq.
Qed.

(** C2 on the provider name "gemini": [call_llm] raises its
    [ValueError], while [call_llm_with_history] raises nothing and
    returns [None]; neither calls a client. *)
Theorem unsupported_provider_with_history_returns_none (w : world) (h : heap) :
  call_llm "hi" "gemini" None default_temperature None w h
  = (Raises (ValueError "Unsupported provider: gemini"), h,
     [LogInfo "Calling gemini LLM with prompt length: 2";
      LogError "Error calling gemini LLM: Unsupported provider: gemini"])
  /\ call_llm_with_history [1] "gemini" ∅ w h
     = (Returns VNone, h, [LogInfo "Calling gemini with 1 messages"]).
Proof.
  split.
  - now rewrite call_llm_unsupported.
  - now rewrite call_llm_with_history_unsupported.
Qed.

(** C6 with the placeholder as the OpenAI key: [call_llm] refuses it
    before any call, [call_llm_with_history] hands it to the client and
    returns the completion. *)
Theorem placeholder_key_reaches_openai_with_history :
  result (call_llm "hi" "openai" None default_temperature None
            (sample_world placeholder_key (inr "T")) sample_heap)
  = Raises (ValueError "OPENAI_API_KEY not found in environment variables")
  /\ network_calls (events (call_llm "hi" "openai" None default_temperature None
                             (sample_world placeholder_key (inr "T")) sample_heap)) = []
  /\ result (call_llm_with_history [1] "openai" ∅
               (sample_world placeholder_key (inr "T")) sample_heap)
     = Returns (VStr "T")
  /\ network_calls (events (call_llm_with_history [1] "openai" ∅
                              (sample_world placeholder_key (inr "T")) sample_heap))
     = [OpenAICreate (VStr "YOUR_API_KEY_HERE")
          {| req_model := VStr "gpt-4o";
             req_messages := [user_message "What is Python?"];
             req_temperature := VFloat default_temperature;
             req_max_tokens := VNone |}].
Proof. repeat split; vm_compute; reflexivity. Qed.

(** C3 as stated fails: when the OpenAI client raises "Connection
    error.", what [call_llm] raises does not carry the provider name. *)
Lemma reraised_fault_does_not_name_provider :
  ~ exists e,
      result (call_llm "hi" "openai" None default_temperature None
                (sample_world both_keys (inl (ClientError "Connection error.")))
                sample_heap) = Raises e
      /\ carries e "openai" /\ carries e "Connection error.".
Proof.
  intros (e & He & Hprovider & _). vm_compute in He. injection He as <-.
  destruct Hprovider as [n Hn]. vm_compute in Hn. discriminate Hn.
Qed.

(** The amended C3 on a run of [call_llm] whose OpenAI client raises. *)
Lemma client_fault_logged_then_reraised_witness :
  result (call_llm "hi" "openai" None default_temperature None
            (sample_world both_keys (inl (ClientError "Connection error.")))
            sample_heap)
  = Raises (ClientError "Connection error.")
  /\ length (network_calls (events (call_llm "hi" "openai" None default_temperature None
               (sample_world both_keys (inl (ClientError "Connection error.")))
               sample_heap))) = 1
  /\ last (events (call_llm "hi" "openai" None default_temperature None
             (sample_world both_keys (inl (ClientError "Connection error.")))
             sample_heap))
     = Some (LogError ("Error calling openai LLM: " +:+ "Connection error.")).
Proof.
  apply (client_fault_logged_then_reraised
           (SingleTurn "hi" "openai" None default_temperature None)).
  vm_compute. left. reflexivity.
Defined.

(** C4 on [assistant, system, user]: the system message changes
    nothing. *)
Lemma system_without_earlier_user_is_dropped_witness :
  anthropic_messages [2; 0; 1] (sample_world both_keys (inr "T")) sample_heap
  = anthropic_messages [2; 1] (sample_world both_keys (inr "T")) sample_heap
  /\ forall out l,
       result (anthropic_messages [2; 0; 1] (sample_world both_keys (inr "T")) sample_heap)
       = Returns out ->
       l ∈ out ->
       final_heap (anthropic_messages [2; 0; 1] (sample_world both_keys (inr "T")) sample_heap)
         l !! "role" <> Some "system".
Proof.
  apply (system_without_earlier_user_is_dropped [2] [1] 0).
  - vm_compute. reflexivity.
  - intros l Hl. apply list_elem_of_singleton in Hl. subst l.
    vm_compute. discriminate.
Defined.

(** C9 on [user, system, assistant, system]: the later system content
    comes first. *)
Lemma system_contents_prepended_in_reverse_witness :
  final_heap (anthropic_messages [1; 0; 2; 4] (sample_world both_keys (inr "T")) sample_heap)
    1 !! "content"
  = Some ("Answer in one sentence." +:+ blank_line +:+
          "You are a helpful assistant." +:+ blank_line +:+
          "What is Python?").
Proof.
  destruct (system_contents_prepended_in_reverse 1 [0; 2; 4] "What is Python?"
              (sample_world both_keys (inr "T")) sample_heap)
    as [_ Hcontent].
  - vm_compute. reflexivity.
  - vm_compute. reflexivity.
  - intros l Hl.
    repeat (apply elem_of_cons in Hl as [->|Hl]); [| | |now apply elem_of_nil in Hl];
      (split; [|intros _]); eexists; vm_compute; reflexivity.
  - refine (eq_trans Hcontent _). vm_compute. reflexivity.
Defined.

Ltac usable_key_here := split; [discriminate | try exact I; intros _; discriminate].

(** C7 on four runs without [max_tokens], one for each entry point and
    provider: each sends one request, to OpenAI with [None] and to
    Anthropic with 4096. *)
Lemma max_tokens_when_omitted_witness :
  (exists req,
     network_calls (events (call_llm "hi" "openai" None default_temperature None
                              (sample_world both_keys (inr "T")) sample_heap))
     = [OpenAICreate (VStr "sk-test") req]
     /\ req_max_tokens req = VNone)
  /\ (exists req,
        network_calls (events (call_llm "hi" "anthropic" None default_temperature None
                                 (sample_world both_keys (inr "T")) sample_heap))
        = [AnthropicCreate (VStr "sk-ant-test") req]
        /\ req_max_tokens req = VInt 4096)
  /\ (exists req,
        network_calls (events (call_llm_with_history [0; 1] "OpenAI"
                                 {[ "model" := VStr "gpt-4o-mini" ]}
                                 (sample_world both_keys (inr "T")) sample_heap))
        = [OpenAICreate (VStr "sk-test") req]
        /\ req_max_tokens req = VNone)
  /\ (exists req,
        network_calls (events (call_llm_with_history [1; 2; 3] "Anthropic"
                                 {[ "model" := VStr "claude-3-haiku" ]}
                                 (sample_world both_keys (inr "T")) sample_heap))
        = [AnthropicCreate (VStr "sk-ant-test") req]
        /\ req_max_tokens req = VInt 4096).
Proof.
  split; [|split; [|split]].
  - destruct (proj2 (max_tokens_when_omitted
                       (SingleTurn "hi" "openai" None default_temperature None) "sk-test"
                       (sample_world both_keys (inr "T")) sample_heap eq_refl))
      as [Hopenai _]; [exact I | usable_key_here |].
    apply Hopenai; [reflexivity | vm_compute; reflexivity].
  - destruct (proj2 (max_tokens_when_omitted
                       (SingleTurn "hi" "anthropic" None default_temperature None)
                       "sk-ant-test" (sample_world both_keys (inr "T")) sample_heap eq_refl))
      as [_ Hanthropic]; [exact I | usable_key_here |].
    apply Hanthropic; [reflexivity | vm_compute; reflexivity | exact I].
  - assert (Homitted : max_tokens_omitted
                        (MultiTurn [0; 1] "OpenAI" {[ "model" := VStr "gpt-4o-mini" ]}))
      by (vm_compute; reflexivity).
    destruct (proj2 (max_tokens_when_omitted
                       (MultiTurn [0; 1] "OpenAI" {[ "model" := VStr "gpt-4o-mini" ]})
                       "sk-test" (sample_world both_keys (inr "T")) sample_heap Homitted))
      as [Hopenai _]; [discriminate | usable_key_here |].
    apply Hopenai; [reflexivity | vm_compute; reflexivity].
  - assert (Homitted : max_tokens_omitted
                        (MultiTurn [1; 2; 3] "Anthropic"
                           {[ "model" := VStr "claude-3-haiku" ]}))
      by (vm_compute; reflexivity).
    destruct (proj2 (max_tokens_when_omitted
                       (MultiTurn [1; 2; 3] "Anthropic"
                          {[ "model" := VStr "claude-3-haiku" ]})
                       "sk-ant-test" (sample_world both_keys (inr "T")) sample_heap Homitted))
      as [_ Hanthropic]; [discriminate | usable_key_here |].
    apply Hanthropic;
      [reflexivity | vm_compute; reflexivity | eexists; vm_compute; reflexivity].
Defined.

(** C8 as stated fails: [call_llm] asked for the model "" sends the
    default model, not the string it was given. *)
Lemma empty_model_is_not_used_verbatim :
  ~ Forall (sends_model (VStr "") (VStr ""))
      (events (call_llm "hi" "openai" (Some "") default_temperature None
                 (sample_world both_keys (inr "T")) sample_heap)).
Proof.
  intros Hall.
  eapply List.Forall_forall in Hall;
    [|vm_compute; right; right; left; reflexivity].
  discriminate Hall.
Qed.

(** The amended C8 on four runs: no model to [call_llm] for OpenAI, a
    model to [call_llm_with_history] for Anthropic, the empty model to
    [call_llm_with_history] for OpenAI, and the empty model to
    [call_llm] for Anthropic.  Each sends one request. *)
Lemma model_default_and_override_witness :
  (exists req,
     network_calls (events (call_llm "hi" "OpenAI" None default_temperature None
                              (sample_world both_keys (inr "T")) sample_heap))
     = [OpenAICreate (VStr "sk-test") req]
     /\ req_model req = VStr "gpt-4o")
  /\ (exists req,
        network_calls (events (call_llm_with_history [1] "anthropic"
                                 {[ "model" := VStr "claude-3-haiku" ]}
                                 (sample_world both_keys (inr "T")) sample_heap))
        = [AnthropicCreate (VStr "sk-ant-test") req]
        /\ req_model req = VStr "claude-3-haiku")
  /\ (exists req,
        network_calls (events (call_llm_with_history [1] "openai" {[ "model" := VStr "" ]}
                                 (sample_world both_keys (inr "T")) sample_heap))
        = [OpenAICreate (VStr "sk-test") req]
        /\ req_model req = VStr "")
  /\ (exists req,
        network_calls (events (call_llm "hi" "anthropic" (Some "") default_temperature None
                                 (sample_world both_keys (inr "T")) sample_heap))
        = [AnthropicCreate (VStr "sk-ant-test") req]
        /\ req_model req = VStr "claude-3-opus-20240229").
Proof.
  split; [|split; [|split]].
  - destruct (model_default_and_override
                (SingleTurn "hi" "OpenAI" None default_temperature None)
                "sk-test" (sample_world both_keys (inr "T")) sample_heap)
      as (Hdefault & _ & _).
    destruct (Hdefault eq_refl) as [_ Hsent].
    destruct Hsent as [Hopenai _]; [exact I | usable_key_here |].
    apply Hopenai; [reflexivity | vm_compute; reflexivity].
  - destruct (model_default_and_override
                (MultiTurn [1] "anthropic" {[ "model" := VStr "claude-3-haiku" ]})
                "sk-ant-test" (sample_world both_keys (inr "T")) sample_heap)
      as (_ & Hgiven & _).
    destruct (Hgiven "claude-3-haiku") as [_ Hsent];
      [vm_compute; reflexivity | left; discriminate |].
    destruct Hsent as [_ Hanthropic]; [discriminate | usable_key_here |].
    apply Hanthropic;
      [reflexivity | vm_compute; reflexivity | eexists; vm_compute; reflexivity].
  - destruct (model_default_and_override
                (MultiTurn [1] "openai" {[ "model" := VStr "" ]})
                "sk-test" (sample_world both_keys (inr "T")) sample_heap)
      as (_ & Hgiven & _).
    destruct (Hgiven "") as [_ Hsent];
      [vm_compute; reflexivity | right; intros [] |].
    destruct Hsent as [Hopenai _]; [discriminate | usable_key_here |].
    apply Hopenai; [reflexivity | vm_compute; reflexivity].
  - destruct (model_default_and_override
                (SingleTurn "hi" "anthropic" (Some "") default_temperature None)
                "sk-ant-test" (sample_world both_keys (inr "T")) sample_heap)
      as (_ & _ & Hempty).
    destruct (Hempty eq_refl I) as [_ Hsent].
    destruct Hsent as [_ Hanthropic]; [exact I | usable_key_here |].
    apply Hanthropic; [reflexivity | vm_compute; reflexivity | exact I].
Defined.

(** C10 on a concrete call. *)
Lemma anthropic_zero_max_tokens_becomes_4096_witness :
  network_calls (events (call_llm "hi" "anthropic" None default_temperature (Some 0%Z)
                           (sample_world both_keys (inr "T")) sample_heap))
  = [AnthropicCreate (VStr "sk-ant-test")
       {| req_model := VStr "claude-3-opus-20240229";
          req_messages := [user_message "hi"];
          req_temperature := VFloat default_temperature;
          req_max_tokens := VInt 4096 |}].
Proof.
  apply (anthropic_zero_max_tokens_becomes_4096 "hi" "anthropic" None default_temperature
           "sk-ant-test").
  - vm_compute. reflexivity.
  - vm_compute. reflexivity.
  - discriminate.
Defined.

(** * Further properties of [utils/call_llm.py] *)

(** ** What the conversion for Anthropic returns and what it writes *)

(** X1. When the conversion returns, it returns the references of the
    messages whose role is not "system", each once per occurrence and in
    input order: nothing is reordered, nothing else is dropped, no
    object is copied. *)
Theorem conversion_keeps_order (messages out : list loc) (w : world) (h : heap) :
  result (anthropic_messages messages w h) = Returns out ->
  out = kept h messages.
Proof.
  intros Hout. unfold anthropic_messages in Hout.
  now apply anthropic_messages_from_returns in Hout.
Qed.

Lemma conversion_keeps_order_witness :
  kept sample_heap [0; 1; 2; 4; 3] = [1; 2; 3].
Proof.
  symmetry.
  apply (conversion_keeps_order [0; 1; 2; 4; 3] [1; 2; 3]
           (sample_world both_keys (inr "T")) sample_heap).
  vm_compute. reflexivity.
Defined.

Lemma anthropic_messages_from_well_formed (messages acc : list loc) (w : world) (h : heap) :
  well_formed h messages ->
  well_formed h acc ->
  exists out, result (anthropic_messages_from messages acc w h) = Returns out.
Proof.
  revert acc h. induction messages as [|m rest IH]; intros acc h Hms Hacc.
  - now exists acc.
  - assert (Hrest : well_formed h rest) by (intros l Hl; apply Hms; now right).
    destruct (Hms m) as [[role Hrole] [c Hc]]; [now left|].
    rewrite anthropic_messages_from_cons, Hrole.
    destruct (decide (role = "system")) as [->|Hns].
    + destruct acc as [|l0 acc']; [now apply IH|].
      destruct (Hacc l0) as [[role0 Hrole0] [c0 Hc0]]; [now left|].
      rewrite Hrole0, Hc, Hc0.
      destruct (decide (role0 = "user")) as [->|]; [|now apply IH].
      assert (Hwf : forall ls, well_formed h ls ->
                well_formed (store h l0 (<["content" := c +:+ blank_line +:+ c0]> (h l0))) ls).
      { intros ls Hls l Hl. destruct (Hls l Hl) as [Hr [c' Hc']].
        rewrite store_keeps by discriminate. split; [assumption|].
        unfold store. destruct (decide (l = l0)) as [->|]; [|now exists c'].
        rewrite lookup_insert_eq. eauto. }
      apply IH; now apply Hwf.
    + apply IH; [assumption|].
      intros l Hl. apply elem_of_app in Hl as [Hl|Hl]; [now apply Hacc|].
      apply list_elem_of_singleton in Hl as ->. split; eauto.
Qed.

(** X2. On a list whose messages all have a role and a content, the
    conversion raises nothing: it returns the kept messages. *)
Theorem conversion_succeeds_on_well_formed (messages : list loc) (w : world) (h : heap) :
  well_formed h messages ->
  result (anthropic_messages messages w h) = Returns (kept h messages).
Proof.
  intros Hwf. unfold anthropic_messages.
  destruct (anthropic_messages_from_well_formed messages [] w h Hwf) as [out Hout].
  { intros l Hl. now apply elem_of_nil in Hl. }
  rewrite Hout. f_equal. now apply anthropic_messages_from_returns in Hout.
Qed.

Ltac each_message Hl :=
  repeat (apply elem_of_cons in Hl as [->|Hl]); [..|now apply elem_of_nil in Hl].

Lemma conversion_succeeds_on_well_formed_witness :
  result (anthropic_messages [0; 1; 2; 3; 4] (sample_world both_keys (inr "T")) sample_heap)
  = Returns [1; 2; 3].
Proof.
  refine (eq_trans (conversion_succeeds_on_well_formed [0; 1; 2; 3; 4]
                      (sample_world both_keys (inr "T")) sample_heap _) _).
  - intros l Hl. each_message Hl; split; eexists; vm_compute; reflexivity.
  - vm_compute. reflexivity.
Defined.

(** The loop writes through one reference only: the one at index 0 of
    the list it builds. *)
Lemma anthropic_messages_from_frame (messages acc : list loc) (w : world) (h : heap) (l : loc) :
  head (acc ++ kept h messages) <> Some l ->
  final_heap (anthropic_messages_from messages acc w h) l = h l.
Proof.
  revert acc h. induction messages as [|m rest IH]; intros acc h Hl; [reflexivity|].
  rewrite anthropic_messages_from_cons.
  destruct (h m !! "role") as [role|] eqn:Hrole; [|reflexivity].
  unfold kept in Hl.
  destruct (decide (role = "system")) as [->|Hns].
  - rewrite filter_cons_False in Hl by (intros Hn; now apply Hn).
    destruct acc as [|l0 acc']; [now apply IH|].
    destruct (h l0 !! "role") as [role0|]; [|reflexivity].
    destruct (decide (role0 = "user")); [|now apply IH].
    destruct (h m !! "content") as [c|]; [|reflexivity].
    destruct (h l0 !! "content") as [c0|]; [|reflexivity].
    rewrite IH by exact Hl.
    unfold store. destruct (decide (l = l0)) as [->|]; [|reflexivity].
    now contradiction Hl.
  - rewrite filter_cons_True in Hl by (rewrite Hrole; congruence).
    apply IH. now rewrite <- app_assoc.
Qed.

(** The loop writes to user messages only. *)
Lemma anthropic_messages_from_writes_user (messages acc : list loc) (w : world) (h : heap)
    (l : loc) :
  h l !! "role" <> Some "user" ->
  final_heap (anthropic_messages_from messages acc w h) l = h l.
Proof.
  revert acc h. induction messages as [|m rest IH]; intros acc h Hl; [reflexivity|].
  rewrite anthropic_messages_from_cons.
  destruct (h m !! "role") as [role|]; [|reflexivity].
  destruct (decide (role = "system")); [|now apply IH].
  destruct acc as [|l0 acc']; [now apply IH|].
  destruct (h l0 !! "role") as [role0|] eqn:Hrole0; [|reflexivity].
  destruct (decide (role0 = "user")) as [->|]; [|now apply IH].
  destruct (h m !! "content") as [c|]; [|reflexivity].
  destruct (h l0 !! "content") as [c0|]; [|reflexivity].
  assert (Hne : l <> l0) by congruence.
  assert (Hsame : store h l0 (<["content" := c +:+ blank_line +:+ c0]> (h l0)) l = h l).
  { unfold store. now destruct (decide (l = l0)). }
  rewrite IH; [exact Hsame | now rewrite Hsame].
Qed.

(** X3. The conversion changes at most one object, the first message it
    keeps, and of that object at most the value under "content": every
    other object is left as it was and every other key of every object
    keeps its value, whether the loop returns or raises. *)
Theorem conversion_writes_first_kept_content_only
    (messages : list loc) (w : world) (h : heap) (l : loc) :
  (head (kept h messages) <> Some l ->
   final_heap (anthropic_messages messages w h) l = h l)
  /\ (forall k, k <> "content" ->
      final_heap (anthropic_messages messages w h) l !! k = h l !! k).
Proof.
  split.
  - intros Hl. unfold anthropic_messages. now apply anthropic_messages_from_frame.
  - intros k Hk. unfold anthropic_messages. now apply anthropic_messages_from_keeps.
Qed.

Lemma conversion_writes_first_kept_content_only_witness :
  final_heap (anthropic_messages [1; 0; 2] (sample_world both_keys (inr "T")) sample_heap) 2
  = sample_heap 2
  /\ final_heap (anthropic_messages [1; 0; 2] (sample_world both_keys (inr "T")) sample_heap) 1
       !! "role" = Some "user".
Proof.
  split.
  - apply (conversion_writes_first_kept_content_only [1; 0; 2]).
    vm_compute. discriminate.
  - refine (eq_trans (proj2 (conversion_writes_first_kept_content_only [1; 0; 2]
                               (sample_world both_keys (inr "T")) sample_heap 1) "role" _) _).
    + discriminate.
    + vm_compute. reflexivity.
Defined.

Lemma anthropic_messages_from_nothing_folds (messages acc : list loc) (w : world) (h : heap) :
  (forall l, l ∈ messages -> is_Some (h l !! "role")) ->
  nothing_to_fold_into h acc ->
  (acc = [] -> first_kept_is_not_user h messages) ->
  anthropic_messages_from messages acc w h = (Returns (acc ++ kept h messages), h, []).
Proof.
  revert acc. induction messages as [|m rest IH]; intros acc Hroles Hacc Hfirst.
  - cbn. now rewrite app_nil_r.
  - assert (Hrest : forall l, l ∈ rest -> is_Some (h l !! "role")).
    { intros l Hl. apply Hroles. now right. }
    destruct (Hroles m) as [role Hrole]; [now left|].
    rewrite anthropic_messages_from_cons, Hrole.
    unfold first_kept_is_not_user, kept in *.
    destruct (decide (role = "system")) as [->|Hns].
    + rewrite filter_cons_False in * by (intros Hn; now apply Hn).
      destruct acc as [|l0 acc']; [now apply IH|].
      pose proof Hacc as (role0 & Hrole0 & Hne). rewrite Hrole0.
      destruct (decide (role0 = "user")); [contradiction|].
      apply IH; [assumption..|discriminate].
    + rewrite filter_cons_True in * by (rewrite Hrole; congruence).
      rewrite IH; [now rewrite <- app_assoc|assumption| |now destruct acc].
      destruct acc as [|l0 acc']; [|exact Hacc].
      exists role. split; [assumption|].
      intros ->. now apply (Hfirst eq_refl).
Qed.

(** X4. When the first message the conversion keeps is not a user
    message (the conversation opens with an assistant turn, or holds
    system messages only), every system message is dropped: the
    conversion returns the kept messages and changes no object. *)
Theorem conversion_folds_nothing_without_leading_user
    (messages : list loc) (w : world) (h : heap) :
  (forall l, l ∈ messages -> is_Some (h l !! "role")) ->
  first_kept_is_not_user h messages ->
  anthropic_messages messages w h = (Returns (kept h messages), h, []).
Proof.
  intros Hroles Hfirst. unfold anthropic_messages.
  now rewrite anthropic_messages_from_nothing_folds.
Qed.

Lemma conversion_folds_nothing_without_leading_user_witness :
  anthropic_messages [2; 0; 3; 4] (sample_world both_keys (inr "T")) sample_heap
  = (Returns [2; 3], sample_heap, []).
Proof.
  apply (conversion_folds_nothing_without_leading_user [2; 0; 3; 4]).
  - intros l Hl. each_message Hl; eexists; vm_compute; reflexivity.
  - vm_compute. discriminate.
Defined.

(** ** The same message objects converted twice *)

Lemma anthropic_messages_user_first (first : loc) (rest : list loc) (c0 : string)
    (w : world) (h : heap) :
  h first !! "role" = Some "user" ->
  h first !! "content" = Some c0 ->
  readable h rest ->
  (exists out, result (anthropic_messages (first :: rest) w h) = Returns out)
  /\ final_heap (anthropic_messages (first :: rest) w h) first !! "content"
     = Some (fold_right prepend_system c0 (rev (system_contents h rest))).
Proof.
  intros Hrole Hcontent Hwf.
  unfold anthropic_messages. rewrite anthropic_messages_from_cons, Hrole.
  destruct (decide ("user" = "system")); [discriminate|].
  rewrite fold_left_rev_right. change ([] ++ [first]) with [first].
  destruct (anthropic_messages_from_user_first rest [] first c0 w h)
    as (out & Hout & Hfolded); eauto.
Qed.

Lemma system_contents_ext (h h' : heap) (messages : list loc) :
  (forall l, h' l !! "role" = h l !! "role") ->
  (forall l, h l !! "role" = Some "system" -> h' l = h l) ->
  system_contents h' messages = system_contents h messages.
Proof.
  intros Hroles Hsys. unfold system_contents.
  induction messages as [|m ms IH]; [reflexivity|].
  csimpl. rewrite IH, Hroles.
  destruct (decide (h m !! "role" = Some "system")) as [Hm|]; [|reflexivity].
  now rewrite (Hsys m Hm).
Qed.

(** X5. The conversion is not idempotent on the caller's objects.  With
    a user message first, converting the same list a second time
    prepends every later system content once more to the content the
    first conversion left: a caller who reuses its message list for a
    second Anthropic call sends the system texts twice. *)
Theorem conversion_twice_prepends_twice
    (first : loc) (rest : list loc) (user_content : string) (w : world) (h : heap) :
  h first !! "role" = Some "user" ->
  h first !! "content" = Some user_content ->
  readable h rest ->
  final_heap (converted_twice (first :: rest) w h) first !! "content"
  = Some (fold_right prepend_system
            (fold_right prepend_system user_content (rev (system_contents h rest)))
            (rev (system_contents h rest))).
Proof.
  intros Hrole Hcontent Hwf.
  destruct (anthropic_messages_user_first first rest user_content w h Hrole Hcontent Hwf)
    as [[out Hout] Hfolded].
  pose proof (fun l k => anthropic_messages_from_keeps (first :: rest) [] w h l k) as Hkeeps.
  pose proof (fun l => anthropic_messages_from_writes_user (first :: rest) [] w h l) as Hframe.
  unfold converted_twice, bind.
  unfold anthropic_messages in Hout, Hfolded, Hkeeps, Hframe |- * at 1.
  destruct (anthropic_messages_from (first :: rest) [] w h) as [[o1 h1] evs1].
  unfold result, final_heap in *. cbn in Hout, Hfolded, Hkeeps, Hframe. subst o1.
  assert (Hroles : forall l, h1 l !! "role" = h l !! "role").
  { intros l. now apply Hkeeps. }
  assert (Hsys : forall l, h l !! "role" = Some "system" -> h1 l = h l).
  { intros l Hl. apply Hframe. congruence. }
  destruct (anthropic_messages_user_first first rest
              (fold_right prepend_system user_content (rev (system_contents h rest))) w h1)
    as [_ Hsecond].
  - now rewrite Hroles.
  - exact Hfolded.
  - intros l Hl. destruct (Hwf l Hl) as [Hr Hc]. rewrite Hroles. split; [assumption|].
    intros Hl'. rewrite Hsys by assumption. now apply Hc.
  - rewrite (system_contents_ext h h1) in Hsecond by assumption.
    unfold final_heap in Hsecond.
    now destruct (anthropic_messages (first :: rest) w h1) as [[o2 h2] evs2].
Qed.

Lemma conversion_twice_prepends_twice_witness :
  final_heap (converted_twice [1; 0] (sample_world both_keys (inr "T")) sample_heap) 1
    !! "content"
  = Some ("You are a helpful assistant." +:+ blank_line +:+
          "You are a helpful assistant." +:+ blank_line +:+ "What is Python?").
Proof.
  refine (eq_trans (conversion_twice_prepends_twice 1 [0] "What is Python?"
                      (sample_world both_keys (inr "T")) sample_heap _ _ _) _).
  - vm_compute. reflexivity.
  - vm_compute. reflexivity.
  - intros l Hl. each_message Hl. split; [|intros _]; eexists; vm_compute; reflexivity.
  - vm_compute. reflexivity.
Defined.

(** ** What comes back from a client *)

(** Case analysis of a run along the branches of the two entry points,
    down to the answer of the client. *)
Ltac run_cases c w h :=
  let m := fresh "m" in
  let Hevs := fresh "Hevs" in
  let Hapi := fresh "Hapi" in
  destruct c as [?prompt ?provider ?model ?temperature ?max_tokens
                |?messages ?provider ?kwargs];
  cbn [run error_prefix provider_of has_messages];
  [ unfold_py; cbn zeta;
    destruct (decide (lower provider = "openai")) as [?Ho|?Ho];
    [ destruct (negb _ || _) eqn:?Hkey;
      [ | destruct (openai_api w _ _) as [?e|[|[?t|] ?more]] eqn:Hapi;
          cbn in Hapi |- *; rewrite ?Hapi; cbn ]
    | destruct (decide (lower provider = "anthropic")) as [?Ha|?Ha];
      [ destruct (negb _) eqn:?Hkey;
        [ | destruct (anthropic_api w _ _) as [?e|[|?t ?more]] eqn:Hapi;
            cbn in Hapi |- *; rewrite ?Hapi; cbn ]
      | ] ]
  | destruct messages as [|m messages];
    [ | pose proof (anthropic_messages_from_events (m :: messages) [] w h) as Hevs;
        unfold_py; cbn zeta;
        destruct (decide (lower provider = "openai")) as [?Ho|?Ho];
        [ destruct (negb _) eqn:?Hkey;
          [ | destruct (openai_api w _ _) as [?e|[|[?t|] ?more]] eqn:Hapi;
              cbn in Hapi |- *; rewrite ?Hapi; cbn ]
        | destruct (decide (lower provider = "anthropic")) as [?Ha|?Ha];
          [ destruct (negb _) eqn:?Hkey;
            [ | destruct (anthropic_messages_from (m :: messages) [] w h)
                  as [[[?out|?e] ?h'] ?evs] eqn:?Hloop;
                cbn in Hevs; subst;
                [ cbn; destruct (anthropic_api w _ _) as [?e|[|?t ?more]] eqn:Hapi;
                  cbn in Hapi |- *; rewrite ?Hapi; cbn
                | ] ]
          | ] ] ] ].

(** X6. Whenever a client answers with a first completion text, the
    entry point returns exactly that text, and no error record is
    logged. *)
Theorem completion_text_returned_unchanged
    (c : call) (w : world) (h : heap) (text : string) (more : list (option string)) :
  In (Some text :: more) (client_replies w (events (run c w h))) ->
  result (run c w h) = Returns (VStr text)
  /\ List.filter is_error_record (events (run c w h)) = [].
Proof.
  run_cases c w h; cbn; try tauto; intros [[= <- <-]|[]]; auto.
Qed.

Lemma completion_text_returned_unchanged_witness :
  result (call_llm_with_history [0; 1; 2; 3] "openai" ∅
            (sample_world both_keys (inr "It is used for scripting.")) sample_heap)
  = Returns (VStr "It is used for scripting.")
  /\ List.filter is_error_record
       (events (call_llm_with_history [0; 1; 2; 3] "openai" ∅
                  (sample_world both_keys (inr "It is used for scripting.")) sample_heap))
     = [].
Proof.
  apply (completion_text_returned_unchanged (MultiTurn [0; 1; 2; 3] "openai" ∅)
           _ _ "It is used for scripting." []).
  vm_compute. left. reflexivity.
Defined.

(** X7. When a client answers without any completion unit, indexing
    the first one raises [IndexError]: the entry point logs it and
    re-raises it, after the one call it made. *)
Theorem empty_reply_raises_index_error (c : call) (w : world) (h : heap) :
  In [] (client_replies w (events (run c w h))) ->
  result (run c w h) = Raises (IndexError "list index out of range")
  /\ length (network_calls (events (run c w h))) = 1
  /\ last (events (run c w h))
     = Some (LogError (error_prefix c +:+ "list index out of range")).
Proof.
  run_cases c w h; cbn; try tauto; intros [[=]|[]]; auto.
Qed.

(** X8. When the OpenAI client answers with a first completion whose
    content is [None], [call_llm] raises the [TypeError] of [len(None)]
    after the call, and [call_llm_with_history], which takes no length,
    returns [None]. *)
Theorem none_content_single_raises_multi_returns
    (c : call) (w : world) (h : heap) (more : list (option string)) :
  In (None :: more) (client_replies w (events (run c w h))) ->
  result (run c w h)
  = match c with
    | SingleTurn _ _ _ _ _ => Raises (TypeError "object of type 'NoneType' has no len()")
    | MultiTurn _ _ _ => Returns VNone
    end.
Proof.
  run_cases c w h; cbn; try tauto; intros [[=]|[]]; auto.
Qed.

Lemma empty_reply_raises_index_error_witness :
  result (call_llm "hi" "anthropic" None default_temperature None
            (reply_world both_keys [] []) sample_heap)
  = Raises (IndexError "list index out of range")
  /\ length (network_calls (events (call_llm "hi" "anthropic" None default_temperature None
                                     (reply_world both_keys [] []) sample_heap))) = 1
  /\ last (events (call_llm "hi" "anthropic" None default_temperature None
                     (reply_world both_keys [] []) sample_heap))
     = Some (LogError ("Error calling anthropic LLM: " +:+ "list index out of range")).
Proof.
  apply (empty_reply_raises_index_error
           (SingleTurn "hi" "anthropic" None default_temperature None)).
  vm_compute. left. reflexivity.
Defined.

Lemma none_content_single_raises_multi_returns_witness :
  result (call_llm "hi" "openai" None default_temperature None
            (reply_world both_keys [None] []) sample_heap)
  = Raises (TypeError "object of type 'NoneType' has no len()")
  /\ result (call_llm_with_history [1] "openai" ∅
               (reply_world both_keys [None] []) sample_heap)
     = Returns VNone.
Proof.
  split.
  - apply (none_content_single_raises_multi_returns
             (SingleTurn "hi" "openai" None default_temperature None) _ _ []).
    vm_compute. left. reflexivity.
  - apply (none_content_single_raises_multi_returns (MultiTurn [1] "openai" ∅) _ _ []).
    vm_compute. left. reflexivity.
Defined.

(** ** One provider per call *)

(** X9. A call for OpenAI never reads the Anthropic key and never calls
    the Anthropic client; a call for Anthropic never reads the OpenAI
    key and never calls the OpenAI client; a call for any other provider
    name touches neither. *)
Theorem other_provider_is_never_touched (c : call) (w : world) (h : heap) :
  (lower (provider_of c) = "openai" ->
   Forall (fun ev => uses_anthropic ev = false) (events (run c w h)))
  /\ (lower (provider_of c) = "anthropic" ->
      Forall (fun ev => uses_openai ev = false) (events (run c w h)))
  /\ (lower (provider_of c) <> "openai" -> lower (provider_of c) <> "anthropic" ->
      Forall (fun ev => uses_openai ev = false /\ uses_anthropic ev = false)
        (events (run c w h))).
Proof.
  repeat split; run_cases c w h; cbn;
    try congruence; try contradiction; intros; repeat constructor.
Qed.

Lemma other_provider_is_never_touched_witness :
  Forall (fun ev => uses_anthropic ev = false)
    (events (call_llm "hi" "OpenAI" None default_temperature None
               (sample_world both_keys (inr "T")) sample_heap))
  /\ Forall (fun ev => uses_openai ev = false)
       (events (call_llm_with_history [1] "anthropic" ∅
                  (sample_world both_keys (inr "T")) sample_heap))
  /\ Forall (fun ev => uses_openai ev = false /\ uses_anthropic ev = false)
       (events (call_llm "hi" "gemini" None default_temperature None
                  (sample_world both_keys (inr "T")) sample_heap)).
Proof.
  split; [|split].
  - apply (proj1 (other_provider_is_never_touched
                    (SingleTurn "hi" "OpenAI" None default_temperature None)
                    (sample_world both_keys (inr "T")) sample_heap)).
    reflexivity.
  - apply (proj1 (proj2 (other_provider_is_never_touched (MultiTurn [1] "anthropic" ∅)
                           (sample_world both_keys (inr "T")) sample_heap))).
    reflexivity.
  - apply (proj2 (proj2 (other_provider_is_never_touched
                           (SingleTurn "hi" "gemini" None default_temperature None)
                           (sample_world both_keys (inr "T")) sample_heap)));
      vm_compute; discriminate.
Defined.

(** X10. The spelling of a supported provider name does not matter
    beyond the log texts: under two names that are equal in lower case,
    a call returns or raises the same, leaves the same objects and
    makes the same client calls. *)
Theorem provider_name_case_is_ignored (c : call) (other : string) (w : world) (h : heap) :
  lower (provider_of c) = "openai" \/ lower (provider_of c) = "anthropic" ->
  lower other = lower (provider_of c) ->
  result (run c w h) = result (run (with_provider c other) w h)
  /\ final_heap (run c w h) = final_heap (run (with_provider c other) w h)
  /\ network_calls (events (run c w h))
     = network_calls (events (run (with_provider c other) w h)).
Proof.
  intros Hsupported Hsame.
  destruct c as [prompt provider model temperature max_tokens|messages provider kwargs];
    cbn [provider_of with_provider run] in *.
  - unfold_py; cbn zeta.
    destruct (decide (lower provider = "openai")) as [Ho|Ho];
      destruct (decide (lower other = "openai")) as [Ho'|Ho']; try congruence.
    + destruct (negb _ || _); [now cbn|].
      destruct (openai_api w _ _) as [e|[|[t|] more]]; now cbn.
    + destruct (decide (lower provider = "anthropic")) as [Ha|Ha];
        destruct (decide (lower other = "anthropic")) as [Ha'|Ha']; try congruence;
        [|tauto].
      destruct (negb _); [now cbn|].
      destruct (anthropic_api w _ _) as [e|[|t more]]; now cbn.
  - destruct messages as [|m messages]; [now cbn|].
    pose proof (anthropic_messages_from_events (m :: messages) [] w h) as Hevs.
    unfold_py; cbn zeta.
    destruct (decide (lower provider = "openai")) as [Ho|Ho];
      destruct (decide (lower other = "openai")) as [Ho'|Ho']; try congruence.
    + destruct (negb _); [now cbn|].
      destruct (openai_api w _ _) as [e|[|[t|] more]]; now cbn.
    + destruct (decide (lower provider = "anthropic")) as [Ha|Ha];
        destruct (decide (lower other = "anthropic")) as [Ha'|Ha']; try congruence;
        [|tauto].
      destruct (negb _); [now cbn|].
      destruct (anthropic_messages_from (m :: messages) [] w h) as [[[out|e] h'] evs];
        cbn in Hevs; subst evs; [|now cbn].
      cbn. destruct (anthropic_api w _ _) as [e|[|t more]]; now cbn.
Qed.

Lemma provider_name_case_is_ignored_witness :
  result (call_llm "hi" "AnThRoPiC" None default_temperature None
            (sample_world both_keys (inr "T")) sample_heap)
  = result (call_llm "hi" "anthropic" None default_temperature None
              (sample_world both_keys (inr "T")) sample_heap)
  /\ final_heap (call_llm "hi" "AnThRoPiC" None default_temperature None
                   (sample_world both_keys (inr "T")) sample_heap)
     = final_heap (call_llm "hi" "anthropic" None default_temperature None
                     (sample_world both_keys (inr "T")) sample_heap)
  /\ network_calls (events (call_llm "hi" "AnThRoPiC" None default_temperature None
                              (sample_world both_keys (inr "T")) sample_heap))
     = network_calls (events (call_llm "hi" "anthropic" None default_temperature None
                                (sample_world both_keys (inr "T")) sample_heap)).
Proof.
  apply (provider_name_case_is_ignored
           (SingleTurn "hi" "AnThRoPiC" None default_temperature None) "anthropic").
  - right. reflexivity.
  - reflexivity.
Defined.

(** ** The fields of the requests *)

Lemma explicit_max_tokens_of_every_request (c : call) (w : world) (h : heap) :
  match c with
  | SingleTurn _ _ _ _ max_tokens =>
      forall n, max_tokens = Some n ->
        Forall (sends_max_tokens (VInt n) (if decide (n = 0%Z) then VInt 4096 else VInt n))
          (events (run c w h))
  | MultiTurn _ _ kwargs =>
      forall v, kwargs !! "max_tokens" = Some v ->
        Forall (sends_max_tokens v v) (events (run c w h))
  end.
Proof.
  destruct c as [prompt provider model temperature max_tokens|messages provider kwargs];
    cbn [run].
  - intros n ->. apply Forall_network_calls; [now intros []|].
    rewrite call_llm_network_calls. cbn zeta.
    repeat case_match; repeat constructor; cbn; unfold or_else; cbn.
    + subst. reflexivity.
    + destruct (Z.eqb_spec n 0); [contradiction | reflexivity].
  - intros v Hv. apply Forall_network_calls; [now intros []|].
    rewrite call_llm_with_history_network_calls. cbn zeta. unfold kwargs_get. rewrite Hv.
    repeat case_match; repeat constructor.
Qed.

(** X11. [call_llm] with an explicit [max_tokens] sends its request to
    the OpenAI client with the number as given, 0 included, and to the
    Anthropic client with the number as given unless it is 0, which
    becomes 4096: with the provider's key in the environment the run
    makes exactly one call, with that value, and no request of any run
    has another. *)
Theorem explicit_max_tokens_single_turn (prompt provider : string) (model : option string)
    (temperature : float) (n : Z) (key : string) (w : world) (h : heap) :
  sends (SingleTurn prompt provider model temperature (Some n)) key w h
    (sends_max_tokens (VInt n) (if decide (n = 0%Z) then VInt 4096 else VInt n)).
Proof.
  apply sends_intro.
  now apply (explicit_max_tokens_of_every_request
               (SingleTurn prompt provider model temperature (Some n))).
Qed.

(** X11 on a run for OpenAI with [max_tokens=0] and a run for Anthropic
    with [max_tokens=256]: each sends one request, with 0 and with 256. *)
Lemma explicit_max_tokens_single_turn_witness :
  (exists req,
     network_calls (events (call_llm "hi" "openai" None default_temperature (Some 0%Z)
                              (sample_world both_keys (inr "T")) sample_heap))
     = [OpenAICreate (VStr "sk-test") req]
     /\ req_max_tokens req = VInt 0)
  /\ (exists req,
        network_calls (events (call_llm "hi" "anthropic" None default_temperature
                                 (Some 256%Z)
                                 (sample_world both_keys (inr "T")) sample_heap))
        = [AnthropicCreate (VStr "sk-ant-test") req]
        /\ req_max_tokens req = VInt 256).
Proof.
  split.
  - destruct (explicit_max_tokens_single_turn "hi" "openai" None default_temperature 0
                "sk-test" (sample_world both_keys (inr "T")) sample_heap) as [_ Hsent].
    destruct Hsent as [Hopenai _]; [exact I | usable_key_here |].
    apply Hopenai; [reflexivity | vm_compute; reflexivity].
  - destruct (explicit_max_tokens_single_turn "hi" "anthropic" None default_temperature 256
                "sk-ant-test" (sample_world both_keys (inr "T")) sample_heap) as [_ Hsent].
    destruct Hsent as [_ Hanthropic]; [exact I | usable_key_here |].
    apply Hanthropic; [reflexivity | vm_compute; reflexivity | exact I].
Defined.

(** X12. [call_llm_with_history] with a [max_tokens] among its keyword
    arguments sends its request to either client with that value as it
    is: unlike [call_llm], it sends 0 (or [None]) to the Anthropic
    client too.  With the provider's key in the environment the run
    makes exactly one call, with that value, and no request of any run
    has another. *)
Theorem explicit_max_tokens_multi_turn (messages : list loc) (provider : string)
    (kwargs : gmap string value) (v : value) (key : string) (w : world) (h : heap) :
  kwargs !! "max_tokens" = Some v ->
  sends (MultiTurn messages provider kwargs) key w h (sends_max_tokens v v).
Proof.
  intros Hv. apply sends_intro.
  now apply (explicit_max_tokens_of_every_request (MultiTurn messages provider kwargs)).
Qed.

(** X12 with [max_tokens=0], on a run for OpenAI and a run for
    Anthropic: each sends one request, with 0. *)
Lemma explicit_max_tokens_multi_turn_witness :
  (exists req,
     network_calls (events (call_llm_with_history [0; 1] "openai" {[ "max_tokens" := VInt 0 ]}
                              (sample_world both_keys (inr "T")) sample_heap))
     = [OpenAICreate (VStr "sk-test") req]
     /\ req_max_tokens req = VInt 0)
  /\ (exists req,
        network_calls (events (call_llm_with_history [1] "anthropic"
                                 {[ "max_tokens" := VInt 0 ]}
                                 (sample_world both_keys (inr "T")) sample_heap))
        = [AnthropicCreate (VStr "sk-ant-test") req]
        /\ req_max_tokens req = VInt 0).
Proof.
  split.
  - destruct (explicit_max_tokens_multi_turn [0; 1] "openai" {[ "max_tokens" := VInt 0 ]}
                (VInt 0) "sk-test" (sample_world both_keys (inr "T")) sample_heap)
      as [_ Hsent]; [vm_compute; reflexivity|].
    destruct Hsent as [Hopenai _]; [discriminate | usable_key_here |].
    apply Hopenai; [reflexivity | vm_compute; reflexivity].
  - destruct (explicit_max_tokens_multi_turn [1] "anthropic" {[ "max_tokens" := VInt 0 ]}
                (VInt 0) "sk-ant-test" (sample_world both_keys (inr "T")) sample_heap)
      as [_ Hsent]; [vm_compute; reflexivity|].
    destruct Hsent as [_ Hanthropic]; [discriminate | usable_key_here |].
    apply Hanthropic;
      [reflexivity | vm_compute; reflexivity | eexists; vm_compute; reflexivity].
Defined.

Lemma temperature_of_every_request (c : call) (w : world) (h : heap) :
  match c with
  | SingleTurn _ _ _ temperature _ =>
      Forall (sends_temperature (VFloat temperature)) (events (run c w h))
  | MultiTurn _ _ kwargs =>
      (kwargs !! "temperature" = None ->
       Forall (sends_temperature (VFloat default_temperature)) (events (run c w h)))
      /\ (forall v, kwargs !! "temperature" = Some v ->
          Forall (sends_temperature v) (events (run c w h)))
  end.
Proof.
  destruct c as [prompt provider model temperature max_tokens|messages provider kwargs];
    cbn [run].
  - apply Forall_network_calls; [now intros []|].
    rewrite call_llm_network_calls. cbn zeta.
    repeat case_match; repeat constructor.
  - split; [intros Hv|intros v Hv]; (apply Forall_network_calls; [now intros []|]);
      rewrite call_llm_with_history_network_calls; cbn zeta;
      unfold kwargs_get; rewrite Hv; repeat case_match; repeat constructor.
Qed.

(** X13. The temperature of the request.  [call_llm] sends its request
    with the number it was given, 0.0 included (no default is applied
    to a falsy value here); [call_llm_with_history] sends its request
    with 0.7 when its keyword arguments have no temperature, and with
    the value given otherwise.  With the provider's key in the
    environment the run makes exactly one call, with that temperature,
    and no request of any run has another. *)
Theorem temperature_sent (c : call) (key : string) (w : world) (h : heap) :
  match c with
  | SingleTurn _ _ _ temperature _ =>
      sends c key w h (sends_temperature (VFloat temperature))
  | MultiTurn _ _ kwargs =>
      (kwargs !! "temperature" = None ->
       sends c key w h (sends_temperature (VFloat default_temperature)))
      /\ (forall v, kwargs !! "temperature" = Some v ->
          sends c key w h (sends_temperature v))
  end.
Proof.
  pose proof (temperature_of_every_request c w h) as Hall.
  destruct c as [prompt provider model temperature max_tokens|messages provider kwargs].
  - now apply sends_intro.
  - destruct Hall as [Habsent Hgiven]. split.
    + intros Hv. now apply sends_intro, Habsent.
    + intros v Hv. now apply sends_intro, Hgiven.
Qed.

(** X13 on three runs: [call_llm] for Anthropic with temperature 0.0,
    [call_llm_with_history] for OpenAI without a temperature, and for
    Anthropic with temperature 0.0.  Each sends one request. *)
Lemma temperature_sent_witness :
  (exists req,
     network_calls (events (call_llm "hi" "anthropic" None 0%float None
                              (sample_world both_keys (inr "T")) sample_heap))
     = [AnthropicCreate (VStr "sk-ant-test") req]
     /\ req_temperature req = VFloat 0)
  /\ (exists req,
        network_calls (events (call_llm_with_history [1] "openai" ∅
                                 (sample_world both_keys (inr "T")) sample_heap))
        = [OpenAICreate (VStr "sk-test") req]
        /\ req_temperature req = VFloat default_temperature)
  /\ (exists req,
        network_calls (events (call_llm_with_history [1] "anthropic"
                                 {[ "temperature" := VFloat 0 ]}
                                 (sample_world both_keys (inr "T")) sample_heap))
        = [AnthropicCreate (VStr "sk-ant-test") req]
        /\ req_temperature req = VFloat 0).
Proof.
  split; [|split].
  - destruct (temperature_sent (SingleTurn "hi" "anthropic" None 0%float None)
                "sk-ant-test" (sample_world both_keys (inr "T")) sample_heap) as [_ Hsent].
    destruct Hsent as [_ Hanthropic]; [exact I | usable_key_here |].
    apply Hanthropic; [reflexivity | vm_compute; reflexivity | exact I].
  - destruct (temperature_sent (MultiTurn [1] "openai" ∅)
                "sk-test" (sample_world both_keys (inr "T")) sample_heap) as [Habsent _].
    destruct Habsent as [_ Hsent]; [vm_compute; reflexivity|].
    destruct Hsent as [Hopenai _]; [discriminate | usable_key_here |].
    apply Hopenai; [reflexivity | vm_compute; reflexivity].
  - destruct (temperature_sent (MultiTurn [1] "anthropic" {[ "temperature" := VFloat 0 ]})
                "sk-ant-test" (sample_world both_keys (inr "T")) sample_heap) as [_ Hgiven].
    destruct (Hgiven (VFloat 0)) as [_ Hsent]; [vm_compute; reflexivity|].
    destruct Hsent as [_ Hanthropic]; [discriminate | usable_key_here |].
    apply Hanthropic;
      [reflexivity | vm_compute; reflexivity | eexists; vm_compute; reflexivity].
Defined.

(** X14. The messages of a request.  [call_llm] sends one message, of
    role "user", holding the prompt, whatever the prompt is.
    [call_llm_with_history] for OpenAI sends the caller's messages as
    they are: every object, system messages included, in input order. *)
Theorem messages_sent (c : call) (w : world) (h : heap) :
  match c with
  | SingleTurn prompt _ _ _ _ =>
      Forall (sends_messages [user_message prompt]) (events (run c w h))
  | MultiTurn messages provider _ =>
      lower provider = "openai" ->
      Forall (sends_messages (map h messages)) (events (run c w h))
  end.
Proof.
  destruct c as [prompt provider model temperature max_tokens|messages provider kwargs];
    cbn [run].
  - apply Forall_network_calls; [now intros []|].
    rewrite call_llm_network_calls. cbn zeta.
    repeat case_match; repeat constructor.
  - intros Hp. apply Forall_network_calls; [now intros []|].
    rewrite call_llm_with_history_network_calls. cbn zeta.
    destruct (decide (lower provider = "openai")); [|contradiction].
    repeat case_match; repeat constructor.
Qed.

Lemma messages_sent_witness :
  Forall (sends_messages [system_message "You are a helpful assistant.";
                          user_message "What is Python?"])
    (events (call_llm_with_history [0; 1] "OpenAI" ∅
               (sample_world both_keys (inr "T")) sample_heap)).
Proof.
  apply (messages_sent (MultiTurn [0; 1] "OpenAI" ∅)
           (sample_world both_keys (inr "T")) sample_heap).
  reflexivity.
Defined.

(** X15. Only the multi-turn path for Anthropic writes to the caller's
    objects: [call_llm], and [call_llm_with_history] under any provider
    name that is not "anthropic" in lower case, leave every object as
    it was. *)
Theorem only_anthropic_history_writes (c : call) (w : world) (h : heap) :
  match c with
  | SingleTurn _ _ _ _ _ => True
  | MultiTurn _ provider _ => lower provider <> "anthropic"
  end ->
  final_heap (run c w h) = h.
Proof.
  run_cases c w h; cbn; try reflexivity; intros Hp; contradiction.
Qed.

Lemma only_anthropic_history_writes_witness :
  final_heap (call_llm_with_history [1; 0] "openai" ∅
                (sample_world both_keys (inr "T")) sample_heap)
  = sample_heap.
Proof.
  apply (only_anthropic_history_writes (MultiTurn [1; 0] "openai" ∅)).
  vm_compute. discriminate.
Defined.

(** X16. On the multi-turn path for Anthropic with a usable key, what
    the conversion wrote stays written whatever the client does
    afterwards: the objects after the call are the objects after the
    conversion, also when the client raises. *)
Theorem conversion_writes_survive_the_call (m : loc) (messages : list loc)
    (provider key : string) (kwargs : gmap string value) (w : world) (h : heap) :
  lower provider = "anthropic" ->
  environ w "ANTHROPIC_API_KEY" = Some key ->
  key <> "" ->
  final_heap (call_llm_with_history (m :: messages) provider kwargs w h)
  = final_heap (anthropic_messages (m :: messages) w h).
Proof.
  intros Hp Hkey Hne.
  pose proof (anthropic_messages_from_events (m :: messages) [] w h) as Hevs.
  unfold_py. cbn zeta.
  destruct (decide (lower provider = "openai")) as [Ho|Ho]; [congruence|].
  destruct (decide (lower provider = "anthropic")) as [Ha|Ha]; [|contradiction].
  rewrite Hkey. cbn [of_opt_str]. rewrite (truthy_key key Hne). cbn [negb].
  destruct (anthropic_messages_from (m :: messages) [] w h) as [[[out|e] h'] evs];
    cbn in Hevs; subst evs; [|reflexivity].
  cbn. now destruct (anthropic_api w _ _) as [e|[|t more]].
Qed.

Lemma conversion_writes_survive_the_call_witness :
  final_heap (call_llm_with_history [1; 0] "anthropic" ∅
                (sample_world both_keys (inl (ClientError "Connection error."))) sample_heap)
    1 !! "content"
  = Some ("You are a helpful assistant." +:+ blank_line +:+ "What is Python?").
Proof.
  rewrite (conversion_writes_survive_the_call 1 [0] "anthropic" "sk-ant-test" ∅
             (sample_world both_keys (inl (ClientError "Connection error."))) sample_heap).
  - vm_compute. reflexivity.
  - reflexivity.
  - vm_compute. reflexivity.
  - discriminate.
Defined.

(** X17. When the conversion raises (a message without a role, a fold
    without a content), the multi-turn path for Anthropic calls no
    client: it logs the error and re-raises it. *)
Theorem conversion_error_stops_the_call (messages : list loc) (provider key : string)
    (kwargs : gmap string value) (w : world) (h : heap) (e : exn) :
  result (anthropic_messages messages w h) = Raises e ->
  lower provider = "anthropic" ->
  environ w "ANTHROPIC_API_KEY" = Some key ->
  key <> "" ->
  result (call_llm_with_history messages provider kwargs w h) = Raises e
  /\ network_calls (events (call_llm_with_history messages provider kwargs w h)) = []
  /\ last (events (call_llm_with_history messages provider kwargs w h))
     = Some (LogError (("Error calling " +:+ provider +:+ " with history: ") +:+ str e)).
Proof.
  intros Hraises Hp Hkey Hne.
  destruct messages as [|m messages]; [discriminate Hraises|].
  pose proof (anthropic_messages_from_events (m :: messages) [] w h) as Hevs.
  unfold_py. cbn zeta.
  destruct (decide (lower provider = "openai")) as [Ho|Ho]; [congruence|].
  destruct (decide (lower provider = "anthropic")) as [Ha|Ha]; [|contradiction].
  rewrite Hkey. cbn [of_opt_str]. rewrite (truthy_key key Hne). cbn [negb].
  destruct (anthropic_messages_from (m :: messages) [] w h) as [[[out|e'] h'] evs];
    cbn in Hevs, Hraises; subst evs; [discriminate|].
  injection Hraises as ->. now cbn.
Qed.

Lemma conversion_error_stops_the_call_witness :
  result (call_llm_with_history [1; 5] "anthropic" ∅
            (sample_world both_keys (inr "T")) sample_heap)
  = Raises (KeyError "role")
  /\ network_calls (events (call_llm_with_history [1; 5] "anthropic" ∅
                              (sample_world both_keys (inr "T")) sample_heap)) = []
  /\ last (events (call_llm_with_history [1; 5] "anthropic" ∅
                     (sample_world both_keys (inr "T")) sample_heap))
     = Some (LogError (("Error calling " +:+ "anthropic" +:+ " with history: ")
                       +:+ str (KeyError "role"))).
Proof.
  apply (conversion_error_stops_the_call [1; 5] "anthropic" "sk-ant-test").
  - vm_compute. reflexivity.
  - reflexivity.
  - vm_compute. reflexivity.
  - discriminate.
Defined.

(** ** Errors and the log *)

(** X18. Past the validation of the message list, a run logs an error
    record exactly when it raises: a run that raises logs one error
    record, as its last event, holding the text of the exception it
    raises, and a run that returns logs none. *)
Theorem error_record_iff_raised (c : call) (w : world) (h : heap) :
  has_messages c ->
  (forall e, result (run c w h) = Raises e ->
     last (events (run c w h)) = Some (LogError (error_prefix c +:+ str e))
     /\ length (List.filter is_error_record (events (run c w h))) = 1)
  /\ (forall v, result (run c w h) = Returns v ->
      List.filter is_error_record (events (run c w h)) = []).
Proof.
  run_cases c w h; cbn; try contradiction; intros _;
    (split; [intros ? [= <-]|intros ? [= <-]]); auto.
Qed.

Lemma error_record_iff_raised_witness :
  last (events (call_llm_with_history [1] "openai" ∅
                  (sample_world ∅ (inr "T")) sample_heap))
  = Some (LogError ("Error calling openai with history: "
                    +:+ "OPENAI_API_KEY not found in environment variables"))
  /\ length (List.filter is_error_record
               (events (call_llm_with_history [1] "openai" ∅
                          (sample_world ∅ (inr "T")) sample_heap))) = 1.
Proof.
  apply (proj1 (error_record_iff_raised (MultiTurn [1] "openai" ∅)
                  (sample_world ∅ (inr "T")) sample_heap ltac:(discriminate))
           (ValueError "OPENAI_API_KEY not found in environment variables")).
  vm_compute. reflexivity.
Defined.

(** X19. No run of either entry point calls a client more than once:
    there is no retry, and no call to both providers. *)
Theorem at_most_one_client_call (c : call) (w : world) (h : heap) :
  length (network_calls (events (run c w h))) <= 1.
Proof.
  destruct (run_network_calls c w h) as [->|[ev ->]]; cbn; lia.
Qed.

(** X20. The key a client is called with is always the value of that
    provider's own environment variable, and never the empty string. *)
Theorem client_called_with_own_key (c : call) (w : world) (h : heap) :
  Forall (called_with_own_key w) (events (run c w h)).
Proof.
  assert (Hkey : forall name,
            negb (truthy (of_opt_str (environ w name))) = false ->
            exists k, environ w name = Some k /\ k <> ""
                      /\ of_opt_str (environ w name) = VStr k).
  { intros name. destruct (environ w name) as [k|]; cbn; [|discriminate].
    destruct (String.eqb_spec k ""); [discriminate|]. eauto. }
  apply Forall_network_calls; [now intros []|].
  destruct c as [prompt provider model temperature max_tokens|messages provider kwargs];
    cbn [run].
  - rewrite call_llm_network_calls. cbn zeta.
    repeat case_match; repeat constructor; cbn; apply Hkey.
    + now apply orb_false_elim in H0 as [? _].
    + assumption.
  - rewrite call_llm_with_history_network_calls. cbn zeta.
    repeat case_match; repeat constructor; cbn; now apply Hkey.
Qed.

(** X21. Without a key for the chosen provider (the variable unset or
    empty), every path of both entry points raises a [ValueError] that
    names the variable, before any client is called and without
    touching any object. *)
Theorem missing_key_stops_every_path (c : call) (w : world) (h : heap) :
  has_messages c ->
  (lower (provider_of c) = "openai" /\ no_key (environ w "OPENAI_API_KEY")
   -> result (run c w h)
      = Raises (ValueError "OPENAI_API_KEY not found in environment variables")
      /\ network_calls (events (run c w h)) = []
      /\ final_heap (run c w h) = h)
  /\ (lower (provider_of c) = "anthropic" /\ no_key (environ w "ANTHROPIC_API_KEY")
      -> result (run c w h)
         = Raises (ValueError "ANTHROPIC_API_KEY not found in environment variables")
         /\ network_calls (events (run c w h)) = []
         /\ final_heap (run c w h) = h).
Proof.
  intros Hc. split; intros [Hp Hk].
  - destruct c as [prompt provider model temperature max_tokens|[|m messages] provider kwargs];
      cbn in Hc, Hp |- *; [|contradiction|]; unfold_py; cbn zeta;
      (destruct (decide (lower provider = "openai")); [|contradiction]);
      destruct Hk as [->| ->]; now cbn.
  - destruct c as [prompt provider model temperature max_tokens|[|m messages] provider kwargs];
      cbn in Hc, Hp |- *; [|contradiction|]; unfold_py; cbn zeta;
      (destruct (decide (lower provider = "openai")); [congruence|]);
      (destruct (decide (lower provider = "anthropic")); [|contradiction]);
      destruct Hk as [->| ->]; now cbn.
Qed.

Lemma missing_key_stops_every_path_witness :
  result (call_llm_with_history [1; 0] "anthropic" ∅
            (sample_world placeholder_key (inr "T")) sample_heap)
  = Raises (ValueError "ANTHROPIC_API_KEY not found in environment variables")
  /\ network_calls (events (call_llm_with_history [1; 0] "anthropic" ∅
                              (sample_world placeholder_key (inr "T")) sample_heap)) = []
  /\ final_heap (call_llm_with_history [1; 0] "anthropic" ∅
                   (sample_world placeholder_key (inr "T")) sample_heap)
     = sample_heap.
Proof.
  apply (proj2 (missing_key_stops_every_path (MultiTurn [1; 0] "anthropic" ∅)
                  (sample_world placeholder_key (inr "T")) sample_heap
                  ltac:(discriminate))).
  split; [reflexivity|]. left. vm_compute. reflexivity.
Defined.

(** X22. For a provider name that is neither "openai" nor "anthropic"
    in lower case, [call_llm] raises a [ValueError] that quotes the name
    as the caller spelled it; it has read no environment variable and
    called no client, and has logged the error once. *)
Theorem unsupported_provider_single_turn (prompt provider : string)
    (model : option string) (temperature : float) (max_tokens : option Z)
    (w : world) (h : heap) :
  lower provider <> "openai" ->
  lower provider <> "anthropic" ->
  result (call_llm prompt provider model temperature max_tokens w h)
  = Raises (ValueError ("Unsupported provider: " +:+ provider))
  /\ Forall (fun ev => match ev with
                       | LogInfo _ | LogError _ => True
                       | _ => False
                       end)
       (events (call_llm prompt provider model temperature max_tokens w h))
  /\ length (List.filter is_error_record
               (events (call_llm prompt provider model temperature max_tokens w h))) = 1.
Proof.
  intros Ho Ha. rewrite call_llm_unsupported by assumption.
  repeat split; repeat constructor.
Qed.

Lemma unsupported_provider_single_turn_witness :
  result (call_llm "hi" "Gemini" None default_temperature None
            (sample_world both_keys (inr "T")) sample_heap)
  = Raises (ValueError "Unsupported provider: Gemini")
  /\ Forall (fun ev => match ev with
                       | LogInfo _ | LogError _ => True
                       | _ => False
                       end)
       (events (call_llm "hi" "Gemini" None default_temperature None
                  (sample_world both_keys (inr "T")) sample_heap))
  /\ length (List.filter is_error_record
               (events (call_llm "hi" "Gemini" None default_temperature None
                          (sample_world both_keys (inr "T")) sample_heap))) = 1.
Proof.
  apply (unsupported_provider_single_turn "hi" "Gemini"); vm_compute; discriminate.
Defined.

(** * Properties of [main.py] *)

Ltac unfold_io :=
  unfold test_llm_direct, answer_question, qa_round, clear_screen, print_header,
    print_success, print_error, print_info, print_prompt, print, input, os_system,
    gateway, io_try_except, io_bind, io_ret, io_stop, unfinished,
    io_ending, io_heap, io_stdin, io_effects in *.

Ltac io_cbn := cbn -[String.append times center format_value str_signal].

Lemma call_llm_keeps_objects (prompt provider : string) (model : option string)
    (temperature : float) (max_tokens : option Z) (w : world) (h : heap) :
  final_heap (call_llm prompt provider model temperature max_tokens w h) = h.
Proof.
  unfold_py. cbn zeta.
  destruct (decide (lower provider = "openai")) as [Ho|Ho].
  - destruct (negb _ || _); [reflexivity|].
    destruct (openai_api w _ _) as [e|[|[t|] more]]; reflexivity.
  - destruct (decide (lower provider = "anthropic")) as [Ha|Ha]; [|reflexivity].
    destruct (negb _); [reflexivity|].
    destruct (anthropic_api w _ _) as [e|[|t more]]; reflexivity.
Qed.

Lemma gateway_events_app (effs1 effs2 : list effect) :
  gateway_events (effs1 ++ effs2) = gateway_events effs1 ++ gateway_events effs2.
Proof. apply omap_app. Qed.

Lemma gateway_events_map (evs : list event) : gateway_events (map Gateway evs) = evs.
Proof.
  unfold gateway_events. induction evs as [|ev evs IH]; [reflexivity|].
  csimpl. now rewrite IH.
Qed.

Lemma is_input_map_gateway (evs : list event) :
  List.filter is_input (map Gateway evs) = [].
Proof. induction evs as [|ev evs IH]; [reflexivity | exact IH]. Qed.

(** The smoke test, read off the one call it makes. *)
Lemma test_llm_direct_run (host : host) (h : heap) (stdin : list string) :
  exists before after,
    test_llm_direct host h stdin
    = (Done (match result (call_llm "Say 'Hello! LLM is working!' if you can read this."
                             default_provider None default_temperature None
                             (host_world host) h) with
             | Returns _ => true
             | Raises _ => false
             end),
       h, stdin,
       before
       ++ map Gateway (events (call_llm "Say 'Hello! LLM is working!' if you can read this."
                                 default_provider None default_temperature None
                                 (host_world host) h))
       ++ after)
    /\ gateway_events before = [] /\ gateway_events after = []
    /\ List.filter is_input before = [] /\ List.filter is_input after = [].
Proof.
  pose proof (call_llm_keeps_objects "Say 'Hello! LLM is working!' if you can read this."
                default_provider None default_temperature None (host_world host) h) as Hh.
  unfold_io. unfold result, events, final_heap in *.
  destruct (call_llm _ _ _ _ _ (host_world host) h) as [[[v|e] h1] evs];
    cbn in Hh; subst h1; io_cbn.
  - eexists [_; _; _; _], [_; _]. split; [reflexivity | repeat split; reflexivity].
  - eexists [_; _; _; _], [_; _; _; _; _]. split; [reflexivity | repeat split; reflexivity].
Qed.

(** ** The smoke test *)

(** X23. [test_llm_direct] never raises: it makes one call of
    [call_llm] with the default provider, model and temperature, and
    answers [True] when that call returns and [False] when it raises,
    whatever the exception.  It reads no input and changes no object. *)
Theorem smoke_test_never_raises (host : host) (h : heap) (stdin : list string) :
  io_ending (test_llm_direct host h stdin)
  = Done (match result (default_call smoke_prompt (host_world host) h) with
          | Returns _ => true
          | Raises _ => false
          end)
  /\ io_stdin (test_llm_direct host h stdin) = stdin
  /\ io_heap (test_llm_direct host h stdin) = h
  /\ gateway_events (io_effects (test_llm_direct host h stdin))
     = events (default_call smoke_prompt (host_world host) h)
  /\ List.filter is_input (io_effects (test_llm_direct host h stdin)) = [].
Proof.
  destruct (test_llm_direct_run host h stdin)
    as (before & after & -> & Hb & Ha & Hbi & Hai).
  unfold io_ending, io_stdin, io_heap, io_effects. cbn [fst snd].
  repeat split.
  - now rewrite !gateway_events_app, gateway_events_map, Hb, Ha, app_nil_r.
  - now rewrite !List.filter_app, is_input_map_gateway, Hbi, Hai.
Qed.

(** ** The question loop *)

(** One question: whatever the gateway does, the [try] statement ends
    normally, with the input and the objects as they were. *)
Lemma answer_question_run (user_input : string) (host : host) (h : heap)
    (stdin : list string) :
  exists effs,
    answer_question user_input host h stdin = (Done tt, h, stdin, effs)
    /\ gateway_events effs = events (default_call user_input (host_world host) h)
    /\ List.filter is_input effs = [].
Proof.
  pose proof (call_llm_keeps_objects user_input default_provider None default_temperature
                None (host_world host) h) as Hh.
  unfold_io. unfold default_call, result, events, final_heap in *.
  destruct (call_llm _ _ _ _ _ (host_world host) h) as [[[v|e] h1] evs];
    cbn in Hh; subst h1; io_cbn; eexists; (split; [reflexivity|]).
  - change (Print ?a :: map Gateway evs ++ ?l) with ([Print a] ++ map Gateway evs ++ l).
    rewrite !gateway_events_app, gateway_events_map, !List.filter_app, is_input_map_gateway.
    split; [apply app_nil_r | reflexivity].
  - change (Print ?a :: map Gateway evs ++ ?l) with ([Print a] ++ map Gateway evs ++ l).
    rewrite !gateway_events_app, gateway_events_map, !List.filter_app, is_input_map_gateway.
    split; [apply app_nil_r | reflexivity].
Qed.

Lemma qa_round_eof (host : host) (h : heap) :
  qa_round host h [] = (Stopped EOFError, h, [], [Input question_prompt]).
Proof. reflexivity. Qed.

Lemma qa_round_quit (line : string) (rest : list string) (host : host) (h : heap) :
  lower line = "quit" ->
  exists goodbye,
    qa_round host h (line :: rest)
    = (Done false, h, rest, [Input question_prompt; Print goodbye]).
Proof.
  intros Hq. eexists. unfold qa_round, io_bind, print_prompt, input.
  destruct (decide (lower line = "quit")); [|contradiction]. reflexivity.
Qed.

Lemma qa_round_question (line : string) (rest : list string) (host : host) (h : heap) :
  lower line <> "quit" ->
  exists effs,
    qa_round host h (line :: rest) = (Done true, h, rest, Input question_prompt :: effs)
    /\ gateway_events effs = events (default_call line (host_world host) h)
    /\ List.filter is_input effs = [].
Proof.
  intros Hq.
  destruct (answer_question_run line host h rest) as (effs & Hrun & Hgw & Hin).
  exists effs. split; [|now split].
  unfold qa_round, io_bind, print_prompt, input.
  destruct (decide (lower line = "quit")); [contradiction|].
  rewrite Hrun. cbn. now rewrite app_nil_r.
Qed.

Lemma while_qa_until_quit (fuel : nat) (questions : list string) (word : string)
    (rest : list string) (host : host) (h : heap) :
  Forall not_quit questions ->
  lower word = "quit" ->
  length questions < fuel ->
  exists effs,
    while_true fuel qa_round host h (questions ++ word :: rest) = (Done tt, h, rest, effs)
    /\ gateway_events effs = answers host h questions
    /\ length (List.filter is_input effs) = S (length questions).
Proof.
  intros Hqs Hword. revert fuel.
  induction Hqs as [|q qs Hq Hqs IH]; intros fuel Hfuel;
    (destruct fuel as [|fuel]; [cbn in Hfuel; lia|]); cbn [while_true app].
  - destruct (qa_round_quit word rest host h Hword) as [goodbye Hround].
    unfold io_bind. rewrite Hround. eexists. split; [reflexivity|]. now cbn.
  - destruct (qa_round_question q (qs ++ word :: rest) host h Hq)
      as (effs & Hround & Hgw & Hin).
    destruct (IH fuel) as (effs' & Hloop & Hgw' & Hin'); [cbn in Hfuel; lia|].
    unfold io_bind. rewrite Hround, Hloop. eexists. split; [reflexivity|].
    change (Input question_prompt :: effs) with ([Input question_prompt] ++ effs).
    rewrite !gateway_events_app, !List.filter_app, !length_app, Hgw, Hgw', Hin, Hin'.
    split; [reflexivity | cbn; lia].
Qed.

Lemma while_qa_until_eof (fuel : nat) (lines : list string) (host : host) (h : heap) :
  Forall not_quit lines ->
  length lines < fuel ->
  exists effs,
    while_true fuel qa_round host h lines = (Stopped EOFError, h, [], effs)
    /\ gateway_events effs = answers host h lines.
Proof.
  intros Hqs. revert fuel.
  induction Hqs as [|q qs Hq Hqs IH]; intros fuel Hfuel;
    (destruct fuel as [|fuel]; [cbn in Hfuel; lia|]); cbn [while_true].
  - eexists. split; reflexivity.
  - destruct (qa_round_question q qs host h Hq) as (effs & Hround & Hgw & Hin).
    destruct (IH fuel) as (effs' & Hloop & Hgw'); [cbn in Hfuel; lia|].
    unfold io_bind. rewrite Hround, Hloop. eexists. split; [reflexivity|].
    change (Input question_prompt :: effs) with ([Input question_prompt] ++ effs).
    now rewrite !gateway_events_app, Hgw, Hgw'.
Qed.

(** [run_qa_flow] is its banner, then the loop. *)
Lemma run_qa_flow_run (fuel : nat) (host : host) (h : heap) (stdin : list string) :
  exists banner,
    gateway_events banner = [] /\ List.filter is_input banner = []
    /\ run_qa_flow fuel host h stdin
       = (io_ending (while_true fuel qa_round host h stdin),
          io_heap (while_true fuel qa_round host h stdin),
          io_stdin (while_true fuel qa_round host h stdin),
          banner ++ io_effects (while_true fuel qa_round host h stdin)).
Proof.
  unfold run_qa_flow, clear_screen, print_header, print_info, print, os_system, io_bind,
    io_ending, io_heap, io_stdin, io_effects.
  destruct (while_true fuel qa_round host h stdin) as [[[o h1] stdin1] effs].
  eexists [_; _; _; _; _; _].
  split; [|split]; [| |reflexivity]; reflexivity.
Qed.

(** X24. A session of [run_qa_flow] that meets the word "quit", in any
    letter case, ends normally there: the lines before it were each
    answered by one default call of [call_llm] with the line as prompt,
    in order, whether those calls returned or raised; the lines after
    it are left unread, and no object is changed. *)
Theorem session_ends_at_quit (fuel : nat) (questions : list string) (word : string)
    (rest : list string) (host : host) (h : heap) :
  Forall not_quit questions ->
  lower word = "quit" ->
  length questions < fuel ->
  io_ending (run_qa_flow fuel host h (questions ++ word :: rest)) = Done tt
  /\ io_stdin (run_qa_flow fuel host h (questions ++ word :: rest)) = rest
  /\ io_heap (run_qa_flow fuel host h (questions ++ word :: rest)) = h
  /\ gateway_events (io_effects (run_qa_flow fuel host h (questions ++ word :: rest)))
     = answers host h questions.
Proof.
  intros Hqs Hword Hfuel.
  destruct (run_qa_flow_run fuel host h (questions ++ word :: rest))
    as (banner & Hgw & _ & ->).
  destruct (while_qa_until_quit fuel questions word rest host h Hqs Hword Hfuel)
    as (effs & -> & Hanswers & _).
  unfold io_ending, io_stdin, io_heap, io_effects. cbn [fst snd].
  repeat split. now rewrite gateway_events_app, Hgw, Hanswers.
Qed.

(** X25. A session of [run_qa_flow] whose input holds no "quit" does not
    end normally: every line is answered, then [input] raises
    [EOFError], which nothing catches. *)
Theorem session_without_quit_ends_in_eof (fuel : nat) (lines : list string)
    (host : host) (h : heap) :
  Forall not_quit lines ->
  length lines < fuel ->
  io_ending (run_qa_flow fuel host h lines) = Stopped EOFError
  /\ io_stdin (run_qa_flow fuel host h lines) = []
  /\ gateway_events (io_effects (run_qa_flow fuel host h lines)) = answers host h lines.
Proof.
  intros Hqs Hfuel.
  destruct (run_qa_flow_run fuel host h lines) as (banner & Hgw & _ & ->).
  destruct (while_qa_until_eof fuel lines host h Hqs Hfuel) as (effs & -> & Hanswers).
  unfold io_ending, io_stdin, io_heap, io_effects. cbn [fst snd].
  repeat split. now rewrite gateway_events_app, Hgw, Hanswers.
Qed.

Lemma split_at_quit (lines : list string) :
  Forall not_quit lines
  \/ exists questions word rest,
       lines = questions ++ word :: rest /\ Forall not_quit questions /\ lower word = "quit".
Proof.
  induction lines as [|line lines IH]; [left; constructor|].
  destruct (decide (lower line = "quit")) as [Hq|Hq].
  - right. exists [], line, lines. repeat split; [constructor | assumption].
  - destruct IH as [Hall|(qs & word & rest & -> & Hqs & Hword)].
    + left. now constructor.
    + right. exists (line :: qs), word, rest. repeat split; [now constructor | assumption].
Qed.

(** X26. On any input, with a bound above the number of its lines, the
    loop of [run_qa_flow] is not cut off, and the session ends in one of
    two ways only: normally, at "quit", or with [EOFError] at the end of
    the input.  No exception of the gateway ends it. *)
Theorem session_ends_by_quit_or_eof (fuel : nat) (stdin : list string)
    (host : host) (h : heap) :
  length stdin < fuel ->
  io_ending (run_qa_flow fuel host h stdin) = Done tt
  \/ io_ending (run_qa_flow fuel host h stdin) = Stopped EOFError.
Proof.
  intros Hfuel.
  destruct (run_qa_flow_run fuel host h stdin) as (banner & _ & _ & ->).
  unfold io_ending at 1 3. cbn [fst].
  destruct (split_at_quit stdin) as [Hall|(qs & word & rest & -> & Hqs & Hword)].
  - right. now destruct (while_qa_until_eof fuel stdin host h Hall Hfuel) as (effs & -> & _).
  - left. rewrite length_app in Hfuel. cbn in Hfuel.
    destruct (while_qa_until_quit fuel qs word rest host h Hqs Hword) as (effs & -> & _);
      [lia | reflexivity].
Qed.

Lemma session_ends_at_quit_witness :
  io_ending (run_qa_flow 3 (sample_host both_keys (inl (ClientError "Connection error.")))
               sample_heap ["What is Python?"; ""; "QuIt"; "never read"]) = Done tt
  /\ io_stdin (run_qa_flow 3 (sample_host both_keys (inl (ClientError "Connection error.")))
                 sample_heap ["What is Python?"; ""; "QuIt"; "never read"]) = ["never read"]
  /\ io_heap (run_qa_flow 3 (sample_host both_keys (inl (ClientError "Connection error.")))
                sample_heap ["What is Python?"; ""; "QuIt"; "never read"]) = sample_heap
  /\ gateway_events
       (io_effects (run_qa_flow 3 (sample_host both_keys (inl (ClientError "Connection error.")))
                      sample_heap ["What is Python?"; ""; "QuIt"; "never read"]))
     = answers (sample_host both_keys (inl (ClientError "Connection error."))) sample_heap
         ["What is Python?"; ""].
Proof.
  apply (session_ends_at_quit 3 ["What is Python?"; ""] "QuIt" ["never read"]).
  - repeat (constructor; [vm_compute; discriminate|]). constructor.
  - reflexivity.
  - cbn. lia.
Defined.

Lemma session_without_quit_ends_in_eof_witness :
  io_ending (run_qa_flow 2 (sample_host both_keys (inr "T")) sample_heap ["quit now"])
  = Stopped EOFError
  /\ io_stdin (run_qa_flow 2 (sample_host both_keys (inr "T")) sample_heap ["quit now"]) = []
  /\ gateway_events
       (io_effects (run_qa_flow 2 (sample_host both_keys (inr "T")) sample_heap ["quit now"]))
     = answers (sample_host both_keys (inr "T")) sample_heap ["quit now"].
Proof.
  apply (session_without_quit_ends_in_eof 2 ["quit now"]).
  - repeat (constructor; [vm_compute; discriminate|]). constructor.
  - cbn. lia.
Defined.

Lemma session_ends_by_quit_or_eof_witness :
  io_ending (run_qa_flow 4 (sample_host ∅ (inr "T")) sample_heap ["a"; "b"; "quit"]) = Done tt
  \/ io_ending (run_qa_flow 4 (sample_host ∅ (inr "T")) sample_heap ["a"; "b"; "quit"])
     = Stopped EOFError.
Proof.
  apply (session_ends_by_quit_or_eof 4 ["a"; "b"; "quit"]). cbn. lia.
Defined.

(** ** [main] and [test_providers] *)

Lemma main_unfold (fuel : nat) :
  main fuel
  = (clear_screen;;;
     print_header "LLM Project CLI";;;
     print (Colors.BOLD +:+ "Welcome to your LLM-powered application!"
            +:+ Colors.ENDC +:+ LF);;;
     working <- test_llm_direct;;
     if negb working then
       print_error (LF +:+ "Exiting due to LLM connection error.");;;
       io_stop (SystemExit 1)
     else menu fuel)%io.
Proof. destruct fuel; reflexivity. Qed.

(** [main] up to the smoke test and its verdict. *)
Lemma main_run (fuel : nat) (host : host) (h : heap) (stdin : list string) :
  exists before,
    gateway_events before = events (default_call smoke_prompt (host_world host) h)
    /\ List.filter is_input before = []
    /\ main fuel host h stdin
       = match result (default_call smoke_prompt (host_world host) h) with
         | Raises _ =>
             (Stopped (SystemExit 1), h, stdin,
              before ++ [Print (Colors.RED +:+ "❌ "
                                +:+ (LF +:+ "Exiting due to LLM connection error.")
                                +:+ Colors.ENDC)])
         | Returns _ =>
             (io_ending (menu fuel host h stdin), io_heap (menu fuel host h stdin),
              io_stdin (menu fuel host h stdin),
              before ++ io_effects (menu fuel host h stdin))
         end.
Proof.
  rewrite main_unfold.
  destruct (test_llm_direct_run host h stdin) as (b & a & Hrun & Hb & Ha & Hbi & Hai).
  exists ([System (if decide (os_name host = "nt") then "cls" else "clear");
           Print (LF +:+ Colors.BOLD +:+ Colors.CYAN +:+ times "=" 60 +:+ Colors.ENDC);
           Print (Colors.BOLD +:+ Colors.HEADER +:+ center "LLM Project CLI" 60
                  +:+ Colors.ENDC);
           Print (Colors.BOLD +:+ Colors.CYAN +:+ times "=" 60 +:+ Colors.ENDC +:+ LF);
           Print (Colors.BOLD +:+ "Welcome to your LLM-powered application!"
                  +:+ Colors.ENDC +:+ LF)]
          ++ b ++ map Gateway (events (default_call smoke_prompt (host_world host) h)) ++ a).
  split; [|split].
  - now rewrite !gateway_events_app, gateway_events_map, Hb, Ha, app_nil_r.
  - now rewrite !List.filter_app, is_input_map_gateway, Hbi, Hai.
  - unfold clear_screen, print_header, print_error, print, os_system, io_stop, io_bind.
    rewrite Hrun. fold smoke_prompt. fold (default_call smoke_prompt).
    destruct (result (default_call smoke_prompt (host_world host) h)) as [v|e].
    + cbn [negb]. unfold io_ending, io_heap, io_stdin, io_effects.
      destruct (menu fuel host h stdin) as [[[o h1] stdin1] effs]. cbn [fst snd].
      destruct o; reflexivity.
    + reflexivity.
Qed.

(** X27. When the smoke test fails, [main] prints that it exits and
    raises [SystemExit(1)]: the menu is not shown and no line of input
    is read. *)
Theorem main_exits_when_smoke_test_fails (fuel : nat) (host : host) (h : heap)
    (stdin : list string) (e : exn) :
  result (default_call smoke_prompt (host_world host) h) = Raises e ->
  io_ending (main fuel host h stdin) = Stopped (SystemExit 1)
  /\ io_stdin (main fuel host h stdin) = stdin
  /\ List.filter is_input (io_effects (main fuel host h stdin)) = []
  /\ gateway_events (io_effects (main fuel host h stdin))
     = events (default_call smoke_prompt (host_world host) h).
Proof.
  intros Hfails.
  destruct (main_run fuel host h stdin) as (before & Hgw & Hin & ->). rewrite Hfails.
  unfold io_ending, io_stdin, io_effects. cbn [fst snd].
  split; [reflexivity|]. split; [reflexivity|]. split.
  - now rewrite List.filter_app, Hin.
  - rewrite gateway_events_app, Hgw. apply app_nil_r.
Qed.

Lemma main_exits_when_smoke_test_fails_witness :
  io_ending (main 3 (sample_host placeholder_key (inr "T")) sample_heap ["1"; "hello"])
  = Stopped (SystemExit 1)
  /\ io_stdin (main 3 (sample_host placeholder_key (inr "T")) sample_heap ["1"; "hello"])
     = ["1"; "hello"]
  /\ List.filter is_input
       (io_effects (main 3 (sample_host placeholder_key (inr "T")) sample_heap ["1"; "hello"]))
     = []
  /\ gateway_events
       (io_effects (main 3 (sample_host placeholder_key (inr "T")) sample_heap ["1"; "hello"]))
     = events (default_call smoke_prompt (sample_world placeholder_key (inr "T")) sample_heap).
Proof.
  apply (main_exits_when_smoke_test_fails 3 (sample_host placeholder_key (inr "T")) sample_heap
           ["1"; "hello"]
           (ValueError "OPENAI_API_KEY not found in environment variables")).
  vm_compute. reflexivity.
Defined.

Lemma menu_run (fuel : nat) (host : host) (h : heap) (stdin : list string) :
  exists shown,
    gateway_events shown = [] /\ length (List.filter is_input shown) = 1
    /\ match stdin with
       | [] => menu fuel host h stdin = (Stopped EOFError, h, [], shown)
       | choice :: rest =>
           if decide (choice = "1") then
             menu fuel host h stdin
             = (io_ending (run_qa_flow fuel host h rest), io_heap (run_qa_flow fuel host h rest),
                io_stdin (run_qa_flow fuel host h rest),
                shown ++ io_effects (run_qa_flow fuel host h rest))
           else if decide (choice = "2") then True
           else exists goodbye,
                  menu fuel host h stdin = (Done tt, h, rest, shown ++ [Print goodbye])
       end.
Proof.
  exists [Print (LF +:+ Colors.CYAN +:+ "Choose an option:" +:+ Colors.ENDC);
          Print ("  " +:+ Colors.BOLD +:+ "1." +:+ Colors.ENDC +:+ " Run Q&A mode");
          Print ("  " +:+ Colors.BOLD +:+ "2." +:+ Colors.ENDC
                 +:+ " Test different LLM providers");
          Print ("  " +:+ Colors.BOLD +:+ "3." +:+ Colors.ENDC +:+ " Exit");
          Input (Colors.YELLOW +:+ "▶ " +:+ (LF +:+ "Enter your choice (1-3): ")
                 +:+ Colors.ENDC)].
  split; [reflexivity|]. split; [reflexivity|].
  destruct stdin as [|choice rest]; [reflexivity|].
  unfold menu, print_prompt, print_info, print, input, io_bind,
    io_ending, io_heap, io_stdin, io_effects.
  destruct (decide (choice = "1")) as [->|H1].
  - destruct (run_qa_flow fuel host h rest) as [[[o h1] stdin1] effs]. reflexivity.
  - destruct (decide (choice = "2")) as [->|H2]; [exact I|].
    eexists. reflexivity.
Qed.

(** X28. After a successful smoke test, [main] reads one line as the
    choice.  Any line other than exactly "1" or "2" ("3", an empty line,
    "1" with a blank) makes it say goodbye and return, having called
    the gateway for the smoke test only; at the end of the input,
    [input] raises [EOFError]. *)
Theorem main_returns_on_any_other_choice (fuel : nat) (host : host) (h : heap)
    (stdin : list string) (v : value) :
  result (default_call smoke_prompt (host_world host) h) = Returns v ->
  (stdin = [] -> io_ending (main fuel host h stdin) = Stopped EOFError)
  /\ (forall choice rest,
        stdin = choice :: rest -> choice <> "1" -> choice <> "2" ->
        io_ending (main fuel host h stdin) = Done tt
        /\ io_stdin (main fuel host h stdin) = rest
        /\ gateway_events (io_effects (main fuel host h stdin))
           = events (default_call smoke_prompt (host_world host) h)).
Proof.
  intros Hworks.
  destruct (main_run fuel host h stdin) as (before & Hgw & Hin & ->). rewrite Hworks.
  destruct (menu_run fuel host h stdin) as (shown & Hshown & _ & Hmenu).
  unfold io_ending, io_stdin, io_effects. cbn [fst snd]. split.
  - intros ->. now rewrite Hmenu.
  - intros choice rest -> H1 H2.
    destruct (decide (choice = "1")); [contradiction|].
    destruct (decide (choice = "2")); [contradiction|].
    destruct Hmenu as [goodbye ->]. cbn [fst snd].
    split; [reflexivity|]. split; [reflexivity|].
    rewrite !gateway_events_app, Hgw, Hshown. cbn. now rewrite app_nil_r.
Qed.

Lemma main_returns_on_any_other_choice_witness :
  io_ending (main 3 (sample_host both_keys (inr "T")) sample_heap ["1 "; "hello"]) = Done tt
  /\ io_stdin (main 3 (sample_host both_keys (inr "T")) sample_heap ["1 "; "hello"])
     = ["hello"]
  /\ gateway_events
       (io_effects (main 3 (sample_host both_keys (inr "T")) sample_heap ["1 "; "hello"]))
     = events (default_call smoke_prompt (sample_world both_keys (inr "T")) sample_heap).
Proof.
  apply (proj2 (main_returns_on_any_other_choice 3 (sample_host both_keys (inr "T"))
                  sample_heap ["1 "; "hello"] (VStr "T") ltac:(vm_compute; reflexivity))
           "1 " ["hello"]).
  - reflexivity.
  - discriminate.
  - discriminate.
Defined.

(** X29. After a successful smoke test, the choice "1" hands the rest of
    the input to [run_qa_flow]: [main] ends as that session ends and
    leaves the input that session leaves, and the gateway sees the
    smoke test and then the session. *)
Theorem main_choice_one_runs_the_session (fuel : nat) (host : host) (h : heap)
    (rest : list string) (v : value) :
  result (default_call smoke_prompt (host_world host) h) = Returns v ->
  io_ending (main fuel host h ("1" :: rest)) = io_ending (run_qa_flow fuel host h rest)
  /\ io_stdin (main fuel host h ("1" :: rest)) = io_stdin (run_qa_flow fuel host h rest)
  /\ gateway_events (io_effects (main fuel host h ("1" :: rest)))
     = events (default_call smoke_prompt (host_world host) h)
       ++ gateway_events (io_effects (run_qa_flow fuel host h rest)).
Proof.
  intros Hworks.
  destruct (main_run fuel host h ("1" :: rest)) as (before & Hgw & Hin & ->). rewrite Hworks.
  destruct (menu_run fuel host h ("1" :: rest)) as (shown & Hshown & _ & Hmenu).
  destruct (decide ("1" = "1")); [|congruence]. rewrite Hmenu.
  unfold io_ending, io_stdin, io_effects. cbn [fst snd].
  split; [reflexivity|]. split; [reflexivity|].
  now rewrite !gateway_events_app, Hgw, Hshown.
Qed.

Lemma main_choice_one_runs_the_session_witness :
  io_ending (main 3 (sample_host both_keys (inr "T")) sample_heap ["1"; "hello"; "quit"])
  = io_ending (run_qa_flow 3 (sample_host both_keys (inr "T")) sample_heap ["hello"; "quit"])
  /\ io_stdin (main 3 (sample_host both_keys (inr "T")) sample_heap ["1"; "hello"; "quit"])
     = io_stdin (run_qa_flow 3 (sample_host both_keys (inr "T")) sample_heap ["hello"; "quit"])
  /\ gateway_events
       (io_effects (main 3 (sample_host both_keys (inr "T")) sample_heap ["1"; "hello"; "quit"]))
     = events (default_call smoke_prompt (sample_world both_keys (inr "T")) sample_heap)
       ++ gateway_events
            (io_effects (run_qa_flow 3 (sample_host both_keys (inr "T")) sample_heap
                           ["hello"; "quit"])).
Proof.
  apply (main_choice_one_runs_the_session 3 (sample_host both_keys (inr "T")) sample_heap
           ["hello"; "quit"] (VStr "T")).
  vm_compute. reflexivity.
Defined.

(** One of the two [try] statements of [test_providers]. *)
Lemma provider_test_run (banner ok_prefix error_prefix : string) (m : M value)
    (host : host) (h : heap) (stdin : list string) :
  final_heap (m (host_world host) h) = h ->
  exists effs,
    io_try_except
      (print banner;;;
       response <- gateway m;;
       print_success (ok_prefix +:+ format_value response))
      (fun e => print_error (error_prefix +:+ str_signal e)) host h stdin
    = (Done tt, h, stdin, effs)
    /\ gateway_events effs = events (m (host_world host) h)
    /\ List.filter is_input effs = [].
Proof.
  intros Hh. unfold_io. unfold result, events, final_heap in *.
  destruct (m (host_world host) h) as [[[v|e] h1] evs];
    cbn in Hh; subst h1; io_cbn; eexists; (split; [reflexivity|]);
    change (Print ?a :: map Gateway evs ++ ?l) with ([Print a] ++ map Gateway evs ++ l);
    rewrite !gateway_events_app, gateway_events_map, !List.filter_app, is_input_map_gateway;
    (split; [apply app_nil_r | reflexivity]).
Qed.

Lemma io_bind_done {A B} (m : IO A) (k : A -> IO B) (host : host) (h h1 h2 : heap)
    (stdin stdin1 stdin2 : list string) (a : A) (o : ending B) (effs1 effs2 : list effect) :
  m host h stdin = (Done a, h1, stdin1, effs1) ->
  k a host h1 stdin1 = (o, h2, stdin2, effs2) ->
  io_bind m k host h stdin = (o, h2, stdin2, effs1 ++ effs2).
Proof. intros Hm Hk. unfold io_bind. now rewrite Hm, Hk. Qed.

Lemma clear_screen_run (host : host) (h : heap) (stdin : list string) :
  clear_screen host h stdin
  = (Done tt, h, stdin,
     [System (if decide (os_name host = "nt") then "cls" else "clear")]).
Proof. reflexivity. Qed.

Lemma print_header_run (text : string) (host : host) (h : heap) (stdin : list string) :
  print_header text host h stdin
  = (Done tt, h, stdin,
     [Print (LF +:+ Colors.BOLD +:+ Colors.CYAN +:+ times "=" 60 +:+ Colors.ENDC);
      Print (Colors.BOLD +:+ Colors.HEADER +:+ center text 60 +:+ Colors.ENDC);
      Print (Colors.BOLD +:+ Colors.CYAN +:+ times "=" 60 +:+ Colors.ENDC +:+ LF)]).
Proof. reflexivity. Qed.

Lemma print_run (text : string) (host : host) (h : heap) (stdin : list string) :
  print text host h stdin = (Done tt, h, stdin, [Print text]).
Proof. reflexivity. Qed.

(** X30. [test_providers] tests OpenAI and then Anthropic with the same
    prompt, the second whatever the first did: neither test can raise.
    It then reads one line, whatever it holds, and goes on with [main]
    on the rest of the input; at the end of the input, [input] raises
    [EOFError] after both tests. *)
Theorem both_providers_are_tested (main : IO unit) (host : host) (h : heap)
    (stdin : list string) :
  (stdin = [] ->
   io_ending (test_providers main host h stdin) = Stopped EOFError
   /\ gateway_events (io_effects (test_providers main host h stdin))
      = events (call_openai providers_prompt (host_world host) h)
        ++ events (call_anthropic providers_prompt (host_world host) h))
  /\ (forall line rest,
        stdin = line :: rest ->
        io_ending (test_providers main host h stdin) = io_ending (main host h rest)
        /\ io_stdin (test_providers main host h stdin) = io_stdin (main host h rest)
        /\ gateway_events (io_effects (test_providers main host h stdin))
           = events (call_openai providers_prompt (host_world host) h)
             ++ events (call_anthropic providers_prompt (host_world host) h)
             ++ gateway_events (io_effects (main host h rest))).
Proof.
  destruct (provider_test_run
              (LF +:+ Colors.BLUE +:+ "Testing OpenAI GPT-4..." +:+ Colors.ENDC)
              "OpenAI: " "OpenAI Error: " (call_openai providers_prompt) host h stdin)
    as (effs1 & Hrun1 & Hgw1 & _);
    [unfold call_openai; apply call_llm_keeps_objects|].
  destruct (provider_test_run
              (LF +:+ Colors.BLUE +:+ "Testing Anthropic Claude..." +:+ Colors.ENDC)
              "Anthropic: " "Anthropic Error: " (call_anthropic providers_prompt) host h stdin)
    as (effs2 & Hrun2 & Hgw2 & _);
    [unfold call_anthropic; apply call_llm_keeps_objects|].
  assert (Hrun : forall o h' stdin' effs,
            (_ <- input (LF +:+ Colors.YELLOW +:+ "Press Enter to continue..."
                         +:+ Colors.ENDC);; main)%io host h stdin = (o, h', stdin', effs) ->
            exists shown done,
              gateway_events shown = [] /\ gateway_events done = []
              /\ test_providers main host h stdin
                 = (o, h', stdin', shown ++ effs1 ++ effs2 ++ done ++ effs)).
  { intros o h' stdin' effs Hrest.
    exists
      ([System (if decide (os_name host = "nt") then "cls" else "clear")]
       ++ [Print (LF +:+ Colors.BOLD +:+ Colors.CYAN +:+ times "=" 60 +:+ Colors.ENDC);
           Print (Colors.BOLD +:+ Colors.HEADER +:+ center "Testing LLM Providers" 60
                  +:+ Colors.ENDC);
           Print (Colors.BOLD +:+ Colors.CYAN +:+ times "=" 60 +:+ Colors.ENDC +:+ LF)]),
      ([Print (LF +:+ Colors.GREEN +:+ "Provider testing complete!" +:+ Colors.ENDC)]
       ++ [Print (Colors.CYAN +:+ rule +:+ Colors.ENDC)]).
    split; [reflexivity|]. split; [reflexivity|].
    unfold test_providers. fold providers_prompt.
    rewrite <- !app_assoc.
    eapply io_bind_done; [apply clear_screen_run|].
    eapply io_bind_done; [apply print_header_run|].
    eapply io_bind_done; [exact Hrun1|].
    eapply io_bind_done; [exact Hrun2|].
    eapply io_bind_done; [apply print_run|].
    eapply io_bind_done; [apply print_run|].
    exact Hrest. }
  split.
  - intros ->.
    destruct (Hrun _ _ _ _ eq_refl) as (shown & done & Hshown & Hdone & ->).
    unfold io_ending, io_effects. cbn [fst snd]. split; [reflexivity|].
    rewrite !gateway_events_app, Hshown, Hdone, Hgw1, Hgw2. cbn. now rewrite app_nil_r.
  - intros line rest ->.
    destruct (main host h rest) as [[[o h1] stdin1] effs] eqn:Hmain.
    assert (Hrest : (_ <- input (LF +:+ Colors.YELLOW +:+ "Press Enter to continue..."
                                 +:+ Colors.ENDC);; main)%io host h (line :: rest)
                    = (o, h1, stdin1,
                       [Input (LF +:+ Colors.YELLOW +:+ "Press Enter to continue..."
                               +:+ Colors.ENDC)] ++ effs)).
    { unfold io_bind, input. now rewrite Hmain. }
    destruct (Hrun _ _ _ _ Hrest) as (shown & done & Hshown & Hdone & ->).
    unfold io_ending, io_stdin, io_effects. cbn [fst snd].
    split; [reflexivity|]. split; [reflexivity|].
    rewrite !gateway_events_app, Hshown, Hdone, Hgw1, Hgw2. reflexivity.
Qed.

Lemma both_providers_are_tested_witness :
  io_ending (test_providers (main 1)
               (sample_host both_keys (inl (ClientError "Connection error."))) sample_heap
               ["anything"; "3"])
  = io_ending (main 1 (sample_host both_keys (inl (ClientError "Connection error.")))
                 sample_heap ["3"])
  /\ io_stdin (test_providers (main 1)
                 (sample_host both_keys (inl (ClientError "Connection error."))) sample_heap
                 ["anything"; "3"])
     = io_stdin (main 1 (sample_host both_keys (inl (ClientError "Connection error.")))
                   sample_heap ["3"])
  /\ gateway_events
       (io_effects (test_providers (main 1)
                      (sample_host both_keys (inl (ClientError "Connection error.")))
                      sample_heap ["anything"; "3"]))
     = events (call_openai providers_prompt
                 (sample_world both_keys (inl (ClientError "Connection error."))) sample_heap)
       ++ events (call_anthropic providers_prompt
                    (sample_world both_keys (inl (ClientError "Connection error.")))
                    sample_heap)
       ++ gateway_events
            (io_effects (main 1 (sample_host both_keys (inl (ClientError "Connection error.")))
                           sample_heap ["3"])).
Proof.
  apply (proj2 (both_providers_are_tested (main 1)
                  (sample_host both_keys (inl (ClientError "Connection error.")))
                  sample_heap ["anything"; "3"]) "anything" ["3"]).
  reflexivity.
Defined.

Example both_provider_tests_reach_their_clients :
  client_calls
    (io_effects (test_providers (io_ret tt)
                   (sample_host both_keys (inl (ClientError "Connection error.")))
                   sample_heap [""]))
  = network_calls (events (call_openai providers_prompt
                             (sample_world both_keys (inl (ClientError "Connection error.")))
                             sample_heap))
    ++ network_calls (events (call_anthropic providers_prompt
                                (sample_world both_keys (inl (ClientError "Connection error.")))
                                sample_heap)).
Proof. vm_compute. reflexivity. Qed.
